(** * PuppyBowl: the roster client of [script.js]

    A shallow embedding of the script: the values the remote API hands
    back, the way JavaScript reads them (property access, truthiness,
    string conversion, [===]), the page (roster container and creation
    form), and the seven functions of the script as computations over
    an explicit page state that may complete normally or throw.

    Conventions of the embedding.
    - JSON numbers are modelled by the integers among the Number
      values ([Z]); the script only compares them and prints them, and
      [number_to_string] prints them the way JavaScript does, also
      beyond 2^53 and 10^21.
    - Objects and arrays carry the identity ([loc]) of the JavaScript
      object they stand for, because [===] compares objects by identity.
    - An [async] function is run to completion in one go; what each
      [fetch] gets back is read from an oracle in the page state, so a
      statement can quantify over every possible answer of the API.
      Where a statement depends on what other handlers do while a call
      awaits, the part of the call that runs after the [await] is
      stated on its own, for an arbitrary page at that moment. *)

From stdpp Require Import base list strings pretty.
From Stdlib Require Import ZArith Lia.

Open Scope Z_scope.

Set Warnings "-register-all".

(** ** JavaScript values *)

Module JS.

Definition loc := Z.

Inductive value : Type :=
| JUndefined
| JNull
| JBool (b : bool)
| JNum (n : Z)
| JStr (s : string)
| JArr (l : loc) (items : list value)
| JObj (l : loc) (props : list (string * value)).

Inductive exn : Type :=
| TypeError
| SyntaxError               (* [response.json()] on an unparseable body *)
| NetworkError              (* [fetch] rejected *)
| Error (message : string). (* [new Error(message)] *)

(** How an expression or a call ends. *)
Inductive completion (A : Type) : Type :=
| Normal (a : A)
| Throw (e : exn).
Arguments Normal {A} a.
Arguments Throw {A} e.

Definition is_normal {A} (c : completion A) : bool :=
  match c with Normal _ => true | Throw _ => false end.

(** Own property of an object built by [JSON.parse]. *)
Fixpoint own_prop (k : string) (props : list (string * value)) : option value :=
  match props with
  | [] => None
  | (k', v) :: rest => if String.eqb k k' then Some v else own_prop k rest
  end.

(** [v.k]: reading a property of [undefined] or [null] throws; a
    primitive or an array has none of the names the script reads
    ([success], [data], [players], [player], [id], [name], [breed],
    [status], [imageUrl]), and no prototype defines them either. *)
Definition get_prop (v : value) (k : string) : completion value :=
  match v with
  | JUndefined | JNull => Throw TypeError
  | JObj _ props => Normal (default JUndefined (own_prop k props))
  | _ => Normal JUndefined
  end.

(** [v?.k] *)
Definition get_prop_opt (v : value) (k : string) : value :=
  match v with
  | JObj _ props => default JUndefined (own_prop k props)
  | _ => JUndefined
  end.

(** ToBoolean *)
Definition truthy (v : value) : bool :=
  match v with
  | JUndefined | JNull => false
  | JBool b => b
  | JNum n => negb (n =? 0)
  | JStr s => negb (String.eqb s "")
  | JArr _ _ | JObj _ _ => true
  end.

(** [Array.isArray] *)
Definition is_array (v : value) : bool :=
  match v with JArr _ _ => true | _ => false end.

Definition array_items (v : value) : list value :=
  match v with JArr _ items => items | _ => [] end.

(** [a === b] *)
Definition strict_eq (a b : value) : bool :=
  match a, b with
  | JUndefined, JUndefined => true
  | JNull, JNull => true
  | JBool x, JBool y => Bool.eqb x y
  | JNum x, JNum y => x =? y
  | JStr x, JStr y => String.eqb x y
  | JArr l _, JArr l' _ => l =? l'
  | JObj l _, JObj l' _ => l =? l'
  | _, _ => false
  end.

Definition is_primitive (v : value) : bool :=
  match v with JArr _ _ | JObj _ _ => false | _ => true end.

Definition join_with (sep : string) (parts : list string) : string :=
  match parts with
  | [] => ""
  | p :: ps => fold_left (fun acc q => acc +:+ sep +:+ q) ps p
  end.

(** Number of decimal digits of a positive integer. *)
Definition decimal_length (x : Z) : Z := Z.of_nat (String.length (pretty x)).

(** Number::toString looks for the shortest digit string that still
    denotes the Number value [x]: the least [k] with a [k]-digit
    integer [s] and a position [n] of the decimal point such that
    [s * 10^(n-k)] rounds to [x]; of several such [s] the one closest
    to [x], and the even one of two equally close. [lo2] and [hi2] are
    twice the bounds of the reals that round to [x], which belong to
    them when the significand of [x] is even ([closed]); [e] is the
    number of digits of [x]. The result is [(s, k, n)]. *)
Fixpoint shortest_digits (fuel : nat) (x lo2 hi2 : Z) (closed : bool) (e k : Z)
  : Z * Z * Z :=
  match fuel with
  | O => (x, e, e)
  | S fuel' =>
      let unit := 10 ^ (e - k) in
      let s_lo := x / unit in
      let s_hi := s_lo + 1 in
      let v_lo := s_lo * unit in
      let v_hi := s_hi * unit in
      let inside v :=
        if closed then (lo2 <=? 2 * v) && (2 * v <=? hi2)
        else (lo2 <? 2 * v) && (2 * v <? hi2) in
      let low := (s_lo, k, e) in
      let high := if s_hi =? 10 ^ k then (1, 1, e + 1) else (s_hi, k, e) in
      match inside v_lo, inside v_hi with
      | true, true =>
          if x - v_lo <? v_hi - x then low
          else if v_hi - x <? x - v_lo then high
          else if Z.even s_lo then low else high
      | true, false => low
      | false, true => high
      | false, false => shortest_digits fuel' x lo2 hi2 closed e (k + 1)
      end
  end.

Definition zeros (n : Z) : string :=
  fold_right String.append "" (replicate (Z.to_nat n) "0").

(** Number::toString of a positive integer Number value [x]. Below
    2^53 every integer is a Number value and its shortest digit string
    is its decimal expansion. From 2^53 on [x] has a 53-bit
    significand [m] and an exponent [q]; its neighbours are [2^q]
    away (the lower one half as far when [x] is a power of two), and
    the digits are the shortest that round to [x], followed by zeros
    up to 21 digits and in exponent notation beyond. *)
Definition unsigned_to_string (x : Z) : string :=
  if x <? 2 ^ 53 then pretty x
  else
    let q := Z.log2 x - 52 in
    let m := x / 2 ^ q in
    let hi2 := 2 * x + 2 ^ q in
    let lo2 := 2 * x - (if m =? 2 ^ 52 then 2 ^ (q - 1) else 2 ^ q) in
    let e := decimal_length x in
    match shortest_digits (Z.to_nat e) x lo2 hi2 (Z.even m) e 1 with
    | (s, k, n) =>
        let digits := pretty s in
        if n <=? 21 then digits +:+ zeros (n - k)
        else
          match digits with
          | String d rest =>
              String d (if k =? 1 then "" else "." +:+ rest)
              +:+ "e+" +:+ pretty (n - 1)
          | EmptyString => digits
          end
    end.

(** Number::toString for the integers among the Number values. *)
Definition number_to_string (n : Z) : string :=
  match n with
  | 0 => "0"
  | Zpos _ => unsigned_to_string n
  | Zneg p => "-" +:+ unsigned_to_string (Zpos p)
  end.
Arguments number_to_string : simpl never.

(** ToString, as a template literal or [+] on a string applies it.
    An array goes through [join]; a plain object prints as
    [[object Object]] unless it has an own [toString] property, which
    after [JSON.parse] is never callable and makes the conversion
    throw. *)
Fixpoint to_string (v : value) : completion string :=
  match v with
  | JUndefined => Normal "undefined"
  | JNull => Normal "null"
  | JBool true => Normal "true"
  | JBool false => Normal "false"
  | JNum n => Normal (number_to_string n)
  | JStr s => Normal s
  | JArr _ items =>
      let fix parts (xs : list value) : completion (list string) :=
        match xs with
        | [] => Normal []
        | x :: xs' =>
            match (match x with
                   | JUndefined | JNull => Normal ""
                   | _ => to_string x
                   end) with
            | Throw e => Throw e
            | Normal s =>
                match parts xs' with
                | Throw e => Throw e
                | Normal ss => Normal (s :: ss)
                end
            end
        end in
      match parts items with
      | Throw e => Throw e
      | Normal ss => Normal (join_with "," ss)
      end
  | JObj _ props =>
      match own_prop "toString" props with
      | Some _ => Throw TypeError
      | None => Normal "[object Object]"
      end
  end.

End JS.
Import JS.

(** ** The page: roster container, creation form, network, console *)

Module Dom.

(** What a click on a button of the roster runs: the listener closures
    of [script.js], with the variable each one captures. *)
Inductive action : Type :=
| ShowDetails (player : value)   (* [() => renderSinglePlayer(player)] *)
| RemoveFromRoster (player : value) (* [async () => await removePlayer(player)] *)
| BackToList.                    (* [init] *)

Inductive node : Type :=
| Text (s : string)
| Elem (tag : string) (attrs : list (string * string))
       (on_click : option action) (children : list node).

(** The children [el.textContent = s] leaves: no text node for the
    empty string. *)
Definition text_nodes (s : string) : list node :=
  if String.eqb s "" then [] else [Text s].

(** [el.textContent = v] for a JavaScript value: the attribute is a
    nullable string, so [undefined] and [null] both clear the element;
    anything else is converted with ToString. *)
Definition text_content_of (v : value) : completion (list node) :=
  match v with
  | JUndefined | JNull => Normal []
  | _ => match to_string v with
         | Normal s => Normal (text_nodes s)
         | Throw e => Throw e
         end
  end.

(** The four named controls of the creation form. *)
Record fields : Type := Fields
  { f_name : string; f_breed : string; f_imageUrl : string; f_status : string }.

(** The variables the submit listener of [renderNewPlayerForm] closes
    over: [form] (the element found in the document) and [newForm]
    (its clone), as indices into the forms of the page. *)
Record submit_listener : Type := Listener
  { captured_form : nat; captured_newForm : nat }.

Record form_element : Type := Form
  { values : fields;            (* what the controls currently hold *)
    defaults : fields;          (* what [reset()] restores *)
    listeners : list submit_listener }.

(** [form.cloneNode(true)]: the controls are inputs, which a clone
    copies with their current and default values; listeners are not
    copied. *)
Definition clone_form (f : form_element) : form_element :=
  {| values := values f; defaults := defaults f; listeners := [] |}.

(** [form.reset()] *)
Definition reset_form (f : form_element) : form_element :=
  {| values := defaults f; defaults := defaults f; listeners := listeners f |}.

Definition add_listener (h : submit_listener) (f : form_element) : form_element :=
  {| values := values f; defaults := defaults f; listeners := listeners f ++ [h] |}.

Inductive method : Type := GET | POST | DELETE.

Record request : Type := Request
  { req_method : method; req_url : string; req_body : option fields }.

(** A response as the script looks at it: the status line and what
    [response.json()] gives ([None]: the body is not JSON). *)
Record response : Type := Response
  { status : Z; body : option value }.

(** [response.ok] *)
Definition ok (r : response) : bool :=
  (200 <=? status r) && (status r <=? 299).

Inductive fetch_result : Type :=
| Rejected                     (* network failure *)
| Responded (r : response).

(** Console output and the calls worth observing, oldest first. *)
Inductive event : Type :=
| ConsoleLog (label : string)
| ConsoleError (label : string)
| Called (function_name : string)
| DefaultPrevented.

(** The page is taken to contain the roster container [#players]. *)
Record page : Type := Page
  { players : list value;        (* [state.players] *)
    ul : list node;              (* children of [#players] *)
    forms : list form_element;   (* every form element created so far *)
    doc_form : option nat;       (* the form attached to the document *)
    net : nat -> fetch_result;   (* the answer to the k-th request *)
    sent : list request;         (* requests issued, oldest first *)
    console : list event }.

Definition with_players (ps : list value) (w : page) : page :=
  {| players := ps; ul := ul w; forms := forms w; doc_form := doc_form w;
     net := net w; sent := sent w; console := console w |}.

Definition with_ul (ns : list node) (w : page) : page :=
  {| players := players w; ul := ns; forms := forms w; doc_form := doc_form w;
     net := net w; sent := sent w; console := console w |}.

Definition with_forms (fs : list form_element) (d : option nat) (w : page) : page :=
  {| players := players w; ul := ul w; forms := fs; doc_form := d;
     net := net w; sent := sent w; console := console w |}.

Definition with_sent (rs : list request) (w : page) : page :=
  {| players := players w; ul := ul w; forms := forms w; doc_form := doc_form w;
     net := net w; sent := rs; console := console w |}.

Definition with_console (es : list event) (w : page) : page :=
  {| players := players w; ul := ul w; forms := forms w; doc_form := doc_form w;
     net := net w; sent := sent w; console := es |}.

(** The answer the next [fetch] will get. *)
Definition next_answer (w : page) : fetch_result := net w (length (sent w)).

End Dom.
Import Dom.

(** ** Computations: page state and exceptions *)

Definition M (A : Type) : Type := page -> completion A * page.

Definition ret {A} (a : A) : M A := fun w => (Normal a, w).

Definition throw {A} (e : exn) : M A := fun w => (Throw e, w).

Definition bind {A B} (m : M A) (k : A -> M B) : M B :=
  fun w => match m w with
           | (Normal a, w') => k a w'
           | (Throw e, w') => (Throw e, w')
           end.

(** [try { m } catch (err) { h err }] *)
Definition try_catch {A} (m : M A) (h : exn -> M A) : M A :=
  fun w => match m w with
           | (Normal a, w') => (Normal a, w')
           | (Throw e, w') => h e w'
           end.

(** An expression evaluated inside a computation. *)
Definition eval {A} (c : completion A) : M A := fun w => (c, w).

(** A call whose promise nobody awaits: it runs, and a rejection is
    not seen by the caller. *)
Definition unawaited (m : M unit) : M unit :=
  fun w => (Normal tt, snd (m w)).

Notation "x <- m ;; k" := (bind m (fun x => k))
  (at level 100, m at next level, right associativity).
Notation "m ;; k" := (bind m (fun _ => k))
  (at level 100, right associativity).

Definition emit (e : event) : M unit :=
  fun w => (Normal tt, with_console (console w ++ [e]) w).

Definition console_log (label : string) : M unit := emit (ConsoleLog label).
Definition console_error (label : string) : M unit := emit (ConsoleError label).

(** [await fetch(url, options)]: the request goes out, and the promise
    either rejects or resolves to a response, whatever its status. *)
Definition fetch (rq : request) : M response :=
  fun w =>
    let w' := with_sent (sent w ++ [rq]) w in
    match next_answer w with
    | Rejected => (Throw NetworkError, w')
    | Responded r => (Normal r, w')
    end.

(** [await response.json()] *)
Definition response_json (r : response) : M value :=
  match body r with
  | Some j => ret j
  | None => throw SyntaxError
  end.

Definition exec {A} (m : M A) (w : page) : page := snd (m w).
Definition outcome {A} (m : M A) (w : page) : completion A := fst (m w).

Definition get_players : M (list value) := fun w => (Normal (players w), w).

Definition set_players (ps : list value) : M unit :=
  fun w => (Normal tt, with_players ps w).

(** [ul.innerHTML = ...], with the markup already parsed. *)
Definition set_ul (ns : list node) : M unit :=
  fun w => (Normal tt, with_ul ns w).

(** [ul.appendChild(card)] *)
Definition append_ul (n : node) : M unit :=
  fun w => (Normal tt, with_ul (ul w ++ [n]) w).

(** [xs.forEach(f)] *)
Fixpoint for_each {A} (xs : list A) (f : A -> M unit) : M unit :=
  match xs with
  | [] => ret tt
  | x :: xs' => f x;; for_each xs' f
  end.

(** [xs.filter(keep)], where the callback may throw. *)
Fixpoint array_filter {A} (keep : A -> completion bool) (xs : list A)
  : completion (list A) :=
  match xs with
  | [] => Normal []
  | x :: xs' =>
      match keep x with
      | Throw e => Throw e
      | Normal b =>
          match array_filter keep xs' with
          | Throw e => Throw e
          | Normal ys => Normal (if b then x :: ys else ys)
          end
      end
  end.

(** ** The script *)

Definition cohortName : string := "2409-GHP-ET-WEB-PT".

Definition API_URL : string :=
  "https://fsa-puppy-bowl.herokuapp.com/api/" +:+ cohortName +:+ "/players".

(** [<li>text</li>], the two placeholders the script writes with
    [innerHTML]. *)
Definition placeholder (text : string) : node :=
  Elem "li" [] None [Text text].

Definition block_button (label : string) (a : action) : node :=
  Elem "button" [("style", "display: block;")] (Some a) [Text label].

Definition fetchAllPlayers : M unit :=
  try_catch
    (response <- fetch (Request GET API_URL None);;
     json <- response_json response;;
     success <- eval (get_prop json "success");;
     well_formed <-
       (if truthy success
        then data <- eval (get_prop json "data");;
             ps <- eval (get_prop data "players");;
             ret (is_array ps)
        else ret false);;
     if well_formed
     then data <- eval (get_prop json "data");;
          ps <- eval (get_prop data "players");;
          set_players (array_items ps);;
          console_log "Fetched players:"
     else console_error "Invalid data format:";;
          set_players [])
    (fun err =>
       console_error "Uh oh, trouble fetching players!";;
       set_players []).

Definition fetchSinglePlayer (playerId : value) : M value :=
  try_catch
    (console_log "Fetching player with ID:";;
     id <- eval (to_string playerId);;
     response <- fetch (Request GET (API_URL +:+ "/" +:+ id) None);;
     console_log "API Response:";;
     (if negb (ok response)
      then throw (Error ("HTTP error! status: " +:+ number_to_string (status response)))
      else ret tt);;
     json <- response_json response;;
     console_log "Parsed JSON:";;
     eval (get_prop json "data"))
    (fun err =>
       id <- eval (to_string playerId);;
       console_error ("Error fetching player #" +:+ id +:+ ":");;
       ret JNull).

Definition addNewPlayer (player : fields) : M value :=
  try_catch
    (response <- fetch (Request POST API_URL (Some player));;
     json <- response_json response;;
     if truthy (get_prop_opt (get_prop_opt json "data") "player")
     then data <- eval (get_prop json "data");;
          eval (get_prop data "player")
     else console_error "Error adding player:";;
          ret JNull)
    (fun err =>
       console_error "Oops, something went wrong with adding that player!";;
       ret JNull).

(** The body of the [forEach] callback of [renderAllPlayers]. *)
Definition render_card (player : value) : M unit :=
  console_log "Processing player:";;
  name <- eval (get_prop player "name");;
  name_text <- eval (text_content_of name);;
  id <- eval (get_prop player "id");;
  id_label <- eval (to_string id);;
  imageUrl <- eval (get_prop player "imageUrl");;
  src <- eval (to_string imageUrl);;
  name' <- eval (get_prop player "name");;
  alt <- eval (to_string name');;
  console_log "Detail button created:";;
  console_log "Delete button created:";;
  append_ul
    (Elem "li" [] None
       [ Elem "h3" [] None name_text;
         Elem "h3" [] None (text_nodes ("ID: " +:+ id_label));
         Elem "img" [("src", src); ("alt", alt)] None [];
         block_button "More details" (ShowDetails player);
         block_button "Delete" (RemoveFromRoster player) ]).

Definition renderAllPlayers : M unit :=
  emit (Called "renderAllPlayers");;
  set_ul [];;
  ps <- get_players;;
  if (length ps =? 0)%nat
  then set_ul [placeholder "No players."]
  else for_each ps render_card;;
       console_log "Updated UL Element:".

Definition removePlayer (player : value) : M unit :=
  try_catch
    (id <- eval (get_prop player "id");;
     id_text <- eval (to_string id);;
     response <- fetch (Request DELETE (API_URL +:+ "/" +:+ id_text) None);;
     (if negb (ok response)
      then throw (Error ("Unable to delete player due to Http error: "
                         +:+ number_to_string (status response)))
      else ret tt);;
     ps <- get_players;;
     kept <- eval (array_filter
                     (fun p =>
                        match get_prop p "id", get_prop player "id" with
                        | Normal pid, Normal target => Normal (negb (strict_eq pid target))
                        | Throw e, _ | _, Throw e => Throw e
                        end) ps);;
     set_players kept;;
     renderAllPlayers)
    (fun err =>
       id <- eval (get_prop player "id");;
       id_text <- eval (to_string id);;
       console_error ("Whoops, trouble removing player #" +:+ id_text
                      +:+ " from the roster!")).

Definition renderSinglePlayer (player : value) : M unit :=
  set_ul [];;
  id <- eval (get_prop player "id");;
  fetchedPlayer <- fetchSinglePlayer id;;
  console_log "Fetched player for details:";;
  not_found <-
    (if negb (truthy fetchedPlayer)
     then ret true
     else p <- eval (get_prop fetchedPlayer "player");;
          ret (negb (truthy p)));;
  if not_found
  then set_ul [placeholder "Player not found."]
  else
    p <- eval (get_prop fetchedPlayer "player");;
    name <- eval (get_prop p "name");;
    id <- eval (get_prop p "id");;
    breed <- eval (get_prop p "breed");;
    status <- eval (get_prop p "status");;
    imageUrl <- eval (get_prop p "imageUrl");;
    name_text <- eval (text_content_of name);;
    id_label <- eval (to_string id);;
    breed_label <- eval (to_string breed);;
    status_label <- eval (to_string status);;
    src <- eval (to_string (if truthy imageUrl then imageUrl else JStr ""));;
    alt <- eval (to_string name);;
    append_ul
      (Elem "li" [] None
         [ Elem "h3" [] None name_text;
           Elem "h3" [] None (text_nodes ("ID: " +:+ id_label));
           Elem "h4" [] None (text_nodes ("Breed: " +:+ breed_label));
           Elem "h4" [] None (text_nodes ("Status: " +:+ status_label));
           Elem "img" [("src", src); ("alt", alt)] None [];
           Elem "button" [] (Some BackToList) [Text "Back to all players"] ]).

(** [document.querySelector("form")] gives the form attached to the
    document ([null] when there is none, and the next line throws);
    its clone takes its place and gets the submit listener. *)
Definition renderNewPlayerForm : M unit :=
  fun w =>
    match doc_form w with
    | None => (Throw TypeError, w)
    | Some form =>
        match forms w !! form with
        | None => (Throw TypeError, w)
        | Some f =>
            let newForm := length (forms w) in
            (Normal tt,
             with_forms
               (forms w ++ [add_listener (Listener form newForm) (clone_form f)])
               (Some newForm) w)
        end
    end.

Definition init : M unit :=
  fetchAllPlayers;;
  renderAllPlayers;;
  renderNewPlayerForm.

(** [el.elements[...].value] for the four controls of form [i]. *)
Definition read_fields (i : nat) : M fields :=
  fun w => match forms w !! i with
           | Some f => (Normal (values f), w)
           | None => (Throw TypeError, w)
           end.

Definition reset (i : nat) : M unit :=
  fun w => (Normal tt, with_forms (alter reset_form i (forms w)) (doc_form w) w).

(** The submit listener, with the [form] and [newForm] it captured. *)
Definition submit_handler (h : submit_listener) : M unit :=
  emit DefaultPrevented;;
  player <- read_fields (captured_newForm h);;
  addNewPlayer player;;
  reset (captured_form h);;
  unawaited init.

(** The user fills in the form that is on the page. *)
Definition type_into_form (v : fields) : M unit :=
  fun w =>
    match doc_form w with
    | None => (Normal tt, w)
    | Some i =>
        (Normal tt,
         with_forms
           (alter (fun f => {| values := v; defaults := defaults f;
                               listeners := listeners f |}) i (forms w))
           (doc_form w) w)
    end.

(** The user submits the form that is on the page: its listeners run. *)
Definition submit_form : M unit :=
  fun w =>
    match doc_form w with
    | None => (Normal tt, w)
    | Some i =>
        match forms w !! i with
        | None => (Normal tt, w)
        | Some f => for_each (listeners f) (fun h => unawaited (submit_handler h)) w
        end
    end.

(** The user clicks a button of the roster. *)
Definition click (a : action) : M unit :=
  unawaited
    match a with
    | ShowDetails player => renderSinglePlayer player
    | RemoveFromRoster player => removePlayer player
    | BackToList => init
    end.

(** What the form on the page shows. *)
Definition visible_fields (w : page) : option fields :=
  match doc_form w with
  | None => None
  | Some i => values <$> forms w !! i
  end.

(** ** Vocabulary of the statements *)

(** The envelope of the list operation, read the way the script reads
    it: [json.success] and [json.data.players]. *)
Definition success_flag (json : value) : value := get_prop_opt json "success".

Definition players_field (json : value) : value :=
  get_prop_opt (get_prop_opt json "data") "players".

(** The envelope of the detail and create operations:
    [json.data.player]. *)
Definition nested_player (json : value) : value :=
  get_prop_opt (get_prop_opt json "data") "player".

(** A value whose properties can be read: anything but [undefined]
    and [null]. *)
Definition coercible (v : value) : bool :=
  match v with JUndefined | JNull => false | _ => true end.

(** [p.id === id] *)
Definition has_id (id : value) (p : value) : bool :=
  strict_eq (get_prop_opt p "id") id.

(** A Player summary of the data model: a record with an integer id,
    a name that is a string, and an image reference that is a string
    or is absent. *)
Definition is_player (p : value) : bool :=
  match get_prop_opt p "id", get_prop_opt p "name" with
  | JNum _, JStr _ => is_primitive (get_prop_opt p "imageUrl")
  | _, _ => false
  end.

(** A roster card, as [renderAllPlayers] builds it, and what it shows. *)
Definition is_card (n : node) : bool :=
  match n with
  | Elem "li" _ _ [Elem "h3" _ _ _; Elem "h3" _ _ _; Elem "img" _ _ _;
                   Elem "button" _ (Some (ShowDetails _)) _;
                   Elem "button" _ (Some (RemoveFromRoster _)) _] => true
  | _ => false
  end.

Definition shown_name (card : node) : option (list node) :=
  match card with
  | Elem "li" _ _ (Elem "h3" _ _ kids :: _) => Some kids
  | _ => None
  end.

Definition shown_id (card : node) : option (list node) :=
  match card with
  | Elem "li" _ _ (_ :: Elem "h3" _ _ kids :: _) => Some kids
  | _ => None
  end.

Definition is_render_call (e : event) : bool :=
  match e with Called "renderAllPlayers" => true | _ => false end.

(** How many times [renderAllPlayers] was entered. *)
Definition render_calls (w : page) : nat :=
  length (List.filter is_render_call (console w)).

(** ** The roster as a function of the state

    What [renderAllPlayers] leaves in the container, written as a
    function of [state.players] alone; [renderAllPlayers_run] below
    shows that the script computes exactly this. *)

Definition and_then {A B} (c : completion A) (k : A -> completion B) : completion B :=
  match c with Normal a => k a | Throw e => Throw e end.

(** The card of one player, or the exception building it runs into. *)
Definition card_of (player : value) : completion node :=
  and_then (get_prop player "name") (fun name =>
  and_then (text_content_of name) (fun name_text =>
  and_then (get_prop player "id") (fun id =>
  and_then (to_string id) (fun id_label =>
  and_then (get_prop player "imageUrl") (fun imageUrl =>
  and_then (to_string imageUrl) (fun src =>
  and_then (to_string name) (fun alt =>
  Normal
    (Elem "li" [] None
       [ Elem "h3" [] None name_text;
         Elem "h3" [] None (text_nodes ("ID: " +:+ id_label));
         Elem "img" [("src", src); ("alt", alt)] None [];
         block_button "More details" (ShowDetails player);
         block_button "Delete" (RemoveFromRoster player) ])))))))).

(** The cards appended before the loop ends, and how it ends. *)
Fixpoint cards_of (ps : list value) : list node * completion unit :=
  match ps with
  | [] => ([], Normal tt)
  | p :: ps' =>
      match card_of p with
      | Throw e => ([], Throw e)
      | Normal card => (card :: fst (cards_of ps'), snd (cards_of ps'))
      end
  end.

(** What the loop writes to the console. *)
Fixpoint card_logs (ps : list value) : list event :=
  match ps with
  | [] => []
  | p :: ps' =>
      ConsoleLog "Processing player:" ::
      match card_of p with
      | Throw _ => []
      | Normal _ =>
          ConsoleLog "Detail button created:" ::
          ConsoleLog "Delete button created:" :: card_logs ps'
      end
  end.

Definition roster_of (ps : list value) : list node :=
  match ps with
  | [] => [placeholder "No players."]
  | _ => fst (cards_of ps)
  end.

Definition roster_logs (ps : list value) : list event :=
  Called "renderAllPlayers" ::
  match ps with
  | [] => []
  | _ => card_logs ps ++
         (if is_normal (snd (cards_of ps))
          then [ConsoleLog "Updated UL Element:"] else [])
  end.

Definition roster_outcome (ps : list value) : completion unit :=
  snd (cards_of ps).

(** What [removePlayer] sends and what it logs when it fails. *)
Definition delete_request (id_text : string) : request :=
  Request DELETE (API_URL +:+ "/" +:+ id_text) None.

Definition removal_failure (id_text : string) : event :=
  ConsoleError ("Whoops, trouble removing player #" +:+ id_text
                +:+ " from the roster!").

(** The request did not succeed: the network failed, or the status is
    not a success status. *)
Definition request_failed (a : fetch_result) : bool :=
  match a with
  | Rejected => true
  | Responded r => negb (ok r)
  end.

(** What [fetchSinglePlayer] sends, and what it hands back for each
    answer of the API. *)
Definition detail_request (id_text : string) : request :=
  Request GET (API_URL +:+ "/" +:+ id_text) None.

Definition detail_result (a : fetch_result) : value :=
  match a with
  | Rejected => JNull
  | Responded r =>
      if ok r
      then match body r with
           | Some json =>
               match get_prop json "data" with
               | Normal data => data
               | Throw _ => JNull
               end
           | None => JNull
           end
      else JNull
  end.

(** What [addNewPlayer] hands back for each answer of the API. *)
Definition create_result (a : fetch_result) : value :=
  match a with
  | Rejected => JNull
  | Responded r =>
      match body r with
      | Some json => if truthy (nested_player json) then nested_player json else JNull
      | None => JNull
      end
  end.

(** The two requests a submission leads to. *)
Definition create_request (player : fields) : request :=
  Request POST API_URL (Some player).

Definition list_request : request := Request GET API_URL None.

(** ** Sample pages *)

Definition rex : value :=
  JObj 1 [("id", JNum 1); ("name", JStr "Rex"); ("imageUrl", JStr "rex.png")].

Definition spot : value :=
  JObj 2 [("id", JNum 2); ("name", JStr "Spot")].

(** [{success: true, data: {players: ps}}] *)
Definition list_envelope (ps : list value) : value :=
  JObj 10 [("success", JBool true); ("data", JObj 11 [("players", JArr 12 ps)])].

(** [{success: true, data: {player: p}}] *)
Definition player_envelope (p : value) : value :=
  JObj 20 [("success", JBool true); ("data", JObj 21 [("player", p)])].

(** A record whose id is printed with an exponent. *)
Definition giant : value :=
  JObj 5 [("id", JNum (10 ^ 21)); ("name", JStr "Giant")].

(** A second record with the id of [rex]. *)
Definition rex_twin : value :=
  JObj 3 [("id", JNum 1); ("name", JStr "Rex II")].

Definition blank : fields := Fields "" "" "" "".

(** The page as the browser hands it to the script: nothing rendered,
    one untouched form in the document. *)
Definition fresh_page (answers : nat -> fetch_result) : page :=
  {| players := []; ul := []; forms := [Form blank blank []];
     doc_form := Some 0%nat; net := answers; sent := []; console := [] |}.

Definition always (a : fetch_result) : nat -> fetch_result := fun _ => a.

(** The roster [rex; spot] on screen. *)
Definition roster_page (answers : nat -> fetch_result) : page :=
  {| players := [rex; spot]; ul := []; forms := [Form blank blank []];
     doc_form := Some 0%nat; net := answers; sent := []; console := [] |}.

(** [rex], his twin and [spot] on screen. *)
Definition twins_page (answers : nat -> fetch_result) : page :=
  {| players := [rex; spot; rex_twin]; ul := []; forms := [Form blank blank []];
     doc_form := Some 0%nat; net := answers; sent := []; console := [] |}.

Definition no_content : fetch_result := Responded (Response 204 None).

Definition not_found : fetch_result := Responded (Response 404 None).

(** What the user of the testable property types into the form. *)
Definition rex_fields : fields := Fields "Rex" "Lab" "" "Bench".

Definition created : fetch_result :=
  Responded (Response 200 (Some (player_envelope rex))).

(** Values the data model does not provide for, used to show where
    the statements below need their hypotheses. *)
Definition odd_id : value := JObj 40 [("toString", JNum 1)].

Definition broken_roster_page (answers : nat -> fetch_result) : page :=
  {| players := [rex; JNull]; ul := []; forms := [Form blank blank []];
     doc_form := Some 0%nat; net := answers; sent := []; console := [] |}.

Definition rex_details : value :=
  JObj 4 [("id", JNum 1); ("name", JStr "Rex"); ("breed", JStr "Lab");
          ("status", JStr "bench"); ("imageUrl", JNull)].

(** ** What a computation leaves alone, what a user can do *)

(** Every run of [m] takes a page to one related to it by [R]. *)
Definition framed (R : page -> page -> Prop) {A} (m : M A) : Prop :=
  forall w, R w (exec m w).

Definition forms_kept (w w' : page) : Prop :=
  forms w' = forms w /\ doc_form w' = doc_form w.

Definition players_kept (w w' : page) : Prop := players w' = players w.

Definition sent_kept (w w' : page) : Prop := sent w' = sent w.

(** The buttons of a card or of a detail view: label and listener. *)
Definition buttons (card : node) : list (string * action) :=
  match card with
  | Elem _ _ _ kids =>
      flat_map (fun k => match k with
                         | Elem "button" _ (Some a) [Text label] => [(label, a)]
                         | _ => []
                         end) kids
  | Text _ => []
  end.

(** The detail card [renderSinglePlayer] builds from the nested player
    record, or the exception building it runs into. *)
Definition detail_card_of (p : value) : completion node :=
  and_then (get_prop p "name") (fun name =>
  and_then (get_prop p "id") (fun id =>
  and_then (get_prop p "breed") (fun breed =>
  and_then (get_prop p "status") (fun status =>
  and_then (get_prop p "imageUrl") (fun imageUrl =>
  and_then (text_content_of name) (fun name_text =>
  and_then (to_string id) (fun id_label =>
  and_then (to_string breed) (fun breed_label =>
  and_then (to_string status) (fun status_label =>
  and_then (to_string (if truthy imageUrl then imageUrl else JStr "")) (fun src =>
  and_then (to_string name) (fun alt =>
  Normal
    (Elem "li" [] None
       [ Elem "h3" [] None name_text;
         Elem "h3" [] None (text_nodes ("ID: " +:+ id_label));
         Elem "h4" [] None (text_nodes ("Breed: " +:+ breed_label));
         Elem "h4" [] None (text_nodes ("Status: " +:+ status_label));
         Elem "img" [("src", src); ("alt", alt)] None [];
         Elem "button" [] (Some BackToList) [Text "Back to all players"] ])))))))))))).

(** What [renderSinglePlayer] does once [await fetchSinglePlayer(...)]
    has delivered: everything from line 207 on. Other handlers may
    have run while the call was waiting, so this part starts from
    whatever page they left ([renderSinglePlayer_resumes]). *)
Definition show_details (fetchedPlayer : value) : M unit :=
  console_log "Fetched player for details:";;
  not_found <-
    (if negb (truthy fetchedPlayer)
     then ret true
     else p <- eval (get_prop fetchedPlayer "player");;
          ret (negb (truthy p)));;
  if not_found
  then set_ul [placeholder "Player not found."]
  else
    p <- eval (get_prop fetchedPlayer "player");;
    name <- eval (get_prop p "name");;
    id <- eval (get_prop p "id");;
    breed <- eval (get_prop p "breed");;
    status <- eval (get_prop p "status");;
    imageUrl <- eval (get_prop p "imageUrl");;
    name_text <- eval (text_content_of name);;
    id_label <- eval (to_string id);;
    breed_label <- eval (to_string breed);;
    status_label <- eval (to_string status);;
    src <- eval (to_string (if truthy imageUrl then imageUrl else JStr ""));;
    alt <- eval (to_string name);;
    append_ul
      (Elem "li" [] None
         [ Elem "h3" [] None name_text;
           Elem "h3" [] None (text_nodes ("ID: " +:+ id_label));
           Elem "h4" [] None (text_nodes ("Breed: " +:+ breed_label));
           Elem "h4" [] None (text_nodes ("Status: " +:+ status_label));
           Elem "img" [("src", src); ("alt", alt)] None [];
           Elem "button" [] (Some BackToList) [Text "Back to all players"] ]).

(** What the user does on the page. *)
Inductive user_event : Type :=
| Typed (v : fields)
| Submitted
| Clicked (a : action).

Definition handle (e : user_event) : M unit :=
  match e with
  | Typed v => type_into_form v
  | Submitted => submit_form
  | Clicked a => click a
  end.

(** The page after a sequence of user events, each handled to the end
    before the next. *)
Fixpoint session (es : list user_event) (w : page) : page :=
  match es with
  | [] => w
  | e :: es' => session es' (exec (handle e) w)
  end.

(** The form on the page carries at most one submit listener, and that
    listener reads this very form and resets an older one. *)
Definition bound_once (w : page) : Prop :=
  exists i f,
    doc_form w = Some i /\ forms w !! i = Some f /\
    (listeners f = [] \/
     exists j, (j < i)%nat /\ listeners f = [Listener j i]).

(** The roster the list operation answers with, as [fetchAllPlayers]
    reads it: the players array of a success envelope, and nothing
    for anything else. *)
Definition listed (a : fetch_result) : list value :=
  match a with
  | Responded (Response _ (Some json)) =>
      if truthy (success_flag json) && is_array (players_field json)
      then array_items (players_field json)
      else []
  | _ => []
  end.

(** The list operation did not deliver a roster. *)
Definition list_failed (a : fetch_result) : bool :=
  match a with
  | Responded (Response _ (Some json)) =>
      negb (truthy (success_flag json) && is_array (players_field json))
  | _ => true
  end.

(** ** Reading properties *)

Create HintDb script.

#[local] Hint Unfold try_catch bind eval fetch response_json console_log
  console_error emit get_players set_players set_ul append_ul ret throw : script.

Lemma get_prop_opt_normal v k x :
  get_prop v k = Normal x -> get_prop_opt v k = x.
Proof. destruct v; simpl; congruence. Qed.

Lemma get_prop_coercible v k :
  coercible v = true -> get_prop v k = Normal (get_prop_opt v k).
Proof. destruct v; simpl; congruence. Qed.

Lemma truthy_coercible v : truthy v = true -> coercible v = true.
Proof. destruct v; simpl; congruence. Qed.

Lemma to_string_primitive v :
  is_primitive v = true -> exists s, to_string v = Normal s.
Proof. destruct v as [| |[]| | | |]; simpl; eauto; discriminate. Qed.

Lemma text_content_primitive v :
  is_primitive v = true -> exists ns, text_content_of v = Normal ns.
Proof. destruct v as [| |[]| | | |]; simpl; eauto; discriminate. Qed.

(** ** Printing numbers *)

Lemma number_to_string_safe (n : Z) :
  - 2 ^ 53 < n < 2 ^ 53 -> number_to_string n = pretty n.
Proof.
  intros [Hlo Hhi]. unfold number_to_string, unsigned_to_string.
  destruct n as [|p|p]; [reflexivity| |].
  - destruct (Z.ltb_spec (Z.pos p) (2 ^ 53)); [reflexivity|lia].
  - destruct (Z.ltb_spec (Z.pos p) (2 ^ 53)); [reflexivity|lia].
Qed.

Example number_to_string_small :
  number_to_string 7 = "7" /\ number_to_string (-42) = "-42" /\
  number_to_string (2 ^ 53) = "9007199254740992".
Proof. repeat split. Qed.

(** Beyond 2^53 the digits are the shortest that denote the number,
    and from 10^21 on the notation has an exponent. *)
Example number_to_string_large :
  number_to_string (2 ^ 64) = "18446744073709552000" /\
  number_to_string (10 ^ 21) = "1e+21" /\
  number_to_string (2 ^ 70) = "1.1805916207174113e+21" /\
  number_to_string 99999999999999991611392 = "1e+23" /\
  number_to_string (- 2 ^ 100) = "-1.2676506002282294e+30".
Proof. vm_compute. repeat split. Qed.

(** ** fetchAllPlayers *)

Lemma fetchAllPlayers_run (w : page) :
  fetchAllPlayers w =
  (Normal tt,
   let w1 := with_sent (sent w ++ [Request GET API_URL None]) w in
   match next_answer w with
   | Responded (Response _ (Some json)) =>
       if truthy (success_flag json) && is_array (players_field json)
       then with_console (console w ++ [ConsoleLog "Fetched players:"])
              (with_players (array_items (players_field json)) w1)
       else if coercible json && (negb (truthy (success_flag json))
                                  || coercible (get_prop_opt json "data"))
       then with_players []
              (with_console (console w ++ [ConsoleError "Invalid data format:"]) w1)
       else with_players []
              (with_console
                 (console w ++ [ConsoleError "Uh oh, trouble fetching players!"]) w1)
   | _ =>
       with_players []
         (with_console
            (console w ++ [ConsoleError "Uh oh, trouble fetching players!"]) w1)
   end).
Proof.
  unfold fetchAllPlayers. autounfold with script.
  destruct (next_answer w) as [|[st [json|]]]; simpl; try reflexivity.
  unfold success_flag, players_field.
  destruct json as [| | | | | |l props]; simpl; try reflexivity.
  destruct (truthy (default JUndefined (own_prop "success" props))); simpl;
    [|reflexivity].
  destruct (default JUndefined (own_prop "data" props)) as [| | | | | |l' dprops];
    simpl; try reflexivity.
  destruct (default JUndefined (own_prop "players" dprops)); reflexivity.
Qed.

(** C1. Whatever the list request gets back, [fetchAllPlayers]
    completes without throwing. After a success envelope (success flag
    true, players field an array) [state.players] is exactly the
    returned sequence, in order; after an envelope whose flag is false
    (or otherwise falsy) or whose players field is not an array, after
    a body that does not parse, and after a network failure, it is the
    empty sequence. *)
Theorem fetchAllPlayers_state (w : page) :
  let w' := exec fetchAllPlayers w in
  outcome fetchAllPlayers w = Normal tt /\
  (forall st json l ps,
      next_answer w = Responded (Response st (Some json)) ->
      success_flag json = JBool true ->
      players_field json = JArr l ps ->
      players w' = ps) /\
  (forall st json,
      next_answer w = Responded (Response st (Some json)) ->
      truthy (success_flag json) = false \/ is_array (players_field json) = false ->
      players w' = []) /\
  (forall st, next_answer w = Responded (Response st None) -> players w' = []) /\
  (next_answer w = Rejected -> players w' = []).
Proof.
  unfold exec, outcome. rewrite fetchAllPlayers_run. simpl.
  split; [reflexivity|]. repeat split.
  - intros st json l ps -> Hflag Hps. rewrite Hflag, Hps. reflexivity.
  - intros st json -> [H|H]; rewrite H; rewrite ?andb_false_r; simpl;
      repeat match goal with |- context [if ?b then _ else _] => destruct b end;
      reflexivity.
  - intros st ->. reflexivity.
  - intros ->. reflexivity.
Qed.

Lemma fetchAllPlayers_state_witness :
  players (exec fetchAllPlayers
             (fresh_page (always (Responded (Response 200 (Some (list_envelope [rex; spot])))))))
  = [rex; spot]
  /\ players (exec fetchAllPlayers
                (roster_page (always (Responded (Response 200 (Some (JObj 10 [("success", JBool false)])))))))
     = []
  /\ players (exec fetchAllPlayers (roster_page (always Rejected))) = [].
Proof.
  split; [|split].
  - apply (proj1 (proj2 (fetchAllPlayers_state _)) 200 (list_envelope [rex; spot]) 12 [rex; spot]);
      reflexivity.
  - apply (proj1 (proj2 (proj2 (fetchAllPlayers_state _))) 200
             (JObj 10 [("success", JBool false)])); [reflexivity|].
    left. reflexivity.
  - apply (proj2 (proj2 (proj2 (proj2 (fetchAllPlayers_state _))))). reflexivity.
Defined.

(** The flag is tested for truthiness: a flag of 1 is taken as success. *)
Example fetchAllPlayers_truthy_flag :
  players (exec fetchAllPlayers
             (fresh_page (always (Responded (Response 200 (Some
                (JObj 10 [("success", JNum 1);
                          ("data", JObj 11 [("players", JArr 12 [rex])])])))))))
  = [rex].
Proof. reflexivity. Qed.

(** A body that parses to [null], and an envelope without [data], end
    in the [catch]. *)
Example fetchAllPlayers_null_body :
  let w' := exec fetchAllPlayers
              (roster_page (always (Responded (Response 200 (Some JNull))))) in
  players w' = [] /\
  console w' = [ConsoleError "Uh oh, trouble fetching players!"].
Proof. split; reflexivity. Qed.

(** ** renderAllPlayers *)

Lemma render_card_run (p : value) (w : page) :
  render_card p w =
  match card_of p with
  | Normal card =>
      (Normal tt,
       with_ul (ul w ++ [card])
         (with_console
            (console w ++ [ConsoleLog "Processing player:";
                           ConsoleLog "Detail button created:";
                           ConsoleLog "Delete button created:"]) w))
  | Throw e =>
      (Throw e, with_console (console w ++ [ConsoleLog "Processing player:"]) w)
  end.
Proof.
  unfold render_card, card_of, and_then. autounfold with script.
  destruct w; simpl.
  destruct (get_prop p "name") as [name|]; simpl; [|reflexivity].
  destruct (text_content_of name); simpl; [|reflexivity].
  destruct (get_prop p "id") as [id|]; simpl; [|reflexivity].
  destruct (to_string id); simpl; [|reflexivity].
  destruct (get_prop p "imageUrl") as [img|]; simpl; [|reflexivity].
  destruct (to_string img); simpl; [|reflexivity].
  destruct (to_string name); simpl; [|reflexivity].
  rewrite <- !app_assoc. reflexivity.
Qed.

Lemma for_each_render_card (ps : list value) : forall w : page,
  for_each ps render_card w =
  (snd (cards_of ps),
   with_ul (ul w ++ fst (cards_of ps))
     (with_console (console w ++ card_logs ps) w)).
Proof.
  induction ps as [|p ps IH]; intros w.
  - destruct w; simpl. unfold ret, with_ul, with_console; simpl.
    rewrite !app_nil_r. reflexivity.
  - simpl. unfold bind. rewrite render_card_run.
    destruct (card_of p) as [card|e]; simpl.
    + rewrite IH. destruct w; simpl. unfold with_ul, with_console; simpl.
      rewrite <- !app_assoc. reflexivity.
    + destruct w; unfold with_ul, with_console; simpl.
      rewrite app_nil_r. reflexivity.
Qed.

Lemma renderAllPlayers_run (w : page) :
  renderAllPlayers w =
  (roster_outcome (players w),
   with_ul (roster_of (players w))
     (with_console (console w ++ roster_logs (players w)) w)).
Proof.
  unfold renderAllPlayers, bind, emit, set_ul, get_players, roster_outcome,
    roster_of, roster_logs.
  destruct w as [ps u fs d n s c]; simpl.
  destruct ps as [|p ps]; [reflexivity|].
  cbn [length Nat.eqb].
  rewrite for_each_render_card.
  unfold with_ul, with_console, console_log, emit; cbn [players ul forms doc_form net sent console].
  destruct (snd (cards_of (p :: ps))) as [[]|e] eqn:E; cbn [is_normal];
    rewrite ?app_nil_r; cbn; rewrite <- ?app_assoc; reflexivity.
Qed.

Lemma card_of_player (p : value) :
  is_player p = true ->
  exists id name src,
    get_prop_opt p "id" = JNum id /\
    get_prop_opt p "name" = JStr name /\
    card_of p =
    Normal
      (Elem "li" [] None
         [ Elem "h3" [] None (text_nodes name);
           Elem "h3" [] None [Text ("ID: " +:+ number_to_string id)];
           Elem "img" [("src", src); ("alt", name)] None [];
           block_button "More details" (ShowDetails p);
           block_button "Delete" (RemoveFromRoster p) ]).
Proof.
  unfold is_player, card_of. intros H.
  destruct p as [| | | | | |l props]; simpl in H; try discriminate.
  simpl.
  destruct (default JUndefined (own_prop "id" props)) as [| | |id| | |];
    try discriminate.
  destruct (default JUndefined (own_prop "name" props)) as [| | | |name| |];
    try discriminate.
  destruct (to_string_primitive _ H) as [src ->].
  exists id, name, src. simpl. auto.
Qed.

Lemma cards_of_players (ps : list value) :
  Forall (fun p => is_player p = true) ps ->
  snd (cards_of ps) = Normal tt /\
  Forall2
    (fun p card =>
       is_card card = true /\
       (exists name, get_prop_opt p "name" = JStr name /\
                     shown_name card = Some (text_nodes name)) /\
       (exists id, get_prop_opt p "id" = JNum id /\
                   shown_id card = Some [Text ("ID: " +:+ number_to_string id)]))
    ps (fst (cards_of ps)).
Proof.
  induction 1 as [|p ps Hp _ [IHo IHc]]; simpl.
  - split; [reflexivity|constructor].
  - destruct (card_of_player p Hp) as (id & name & src & Hid & Hname & ->).
    simpl. split; [exact IHo|]. constructor; [|exact IHc].
    split; [reflexivity|]. split; eauto.
Qed.

(** C6. With no players in the state, [renderAllPlayers] leaves
    exactly one row in the container, the placeholder "No players.",
    and no card. With N players (records of the data model) it
    completes and leaves exactly N cards, the i-th showing the name of
    the i-th player and an element labelled "ID: " with its id as
    JavaScript prints it. *)
Theorem renderAllPlayers_roster (w : page) :
  let w' := exec renderAllPlayers w in
  (players w = [] ->
   ul w' = [placeholder "No players."] /\ List.filter is_card (ul w') = []) /\
  (players w <> [] ->
   Forall (fun p => is_player p = true) (players w) ->
   outcome renderAllPlayers w = Normal tt /\
   length (ul w') = length (players w) /\
   Forall2
     (fun p card =>
        is_card card = true /\
        (exists name, get_prop_opt p "name" = JStr name /\
                      shown_name card = Some (text_nodes name)) /\
        (exists id, get_prop_opt p "id" = JNum id /\
                    shown_id card = Some [Text ("ID: " +:+ number_to_string id)]))
     (players w) (ul w')).
Proof.
  unfold exec, outcome. rewrite renderAllPlayers_run. simpl. split.
  - intros ->. split; reflexivity.
  - intros Hne Hps. destruct (cards_of_players _ Hps) as [Ho Hc].
    unfold roster_outcome, roster_of.
    destruct (players w) as [|p ps] eqn:E; [congruence|].
    split; [exact Ho|]. split; [|exact Hc].
    symmetry. eapply Forall2_length, Hc.
Qed.

Lemma renderAllPlayers_roster_witness :
  length (ul (exec renderAllPlayers (roster_page (always Rejected)))) = 2%nat
  /\ ul (exec renderAllPlayers (fresh_page (always Rejected)))
     = [placeholder "No players."].
Proof.
  split.
  - apply (proj2 (renderAllPlayers_roster (roster_page (always Rejected)))).
    + discriminate.
    + repeat constructor.
  - apply (proj1 (renderAllPlayers_roster (fresh_page (always Rejected)))).
    reflexivity.
Defined.

(** C7. Rendering the list twice in a row with the state unchanged
    leaves the container with the same content as rendering it once,
    and ends the same way: the content is rebuilt from [state.players]
    whatever the container held before, never appended to it. *)
Theorem renderAllPlayers_idempotent (w : page) :
  let once := exec renderAllPlayers w in
  let twice := exec renderAllPlayers once in
  ul twice = ul once /\
  players once = players w /\
  outcome renderAllPlayers once = outcome renderAllPlayers w /\
  (forall before, ul (exec renderAllPlayers (with_ul before w)) = ul once).
Proof.
  cbv zeta. unfold exec, outcome.
  rewrite (renderAllPlayers_run w). simpl.
  rewrite renderAllPlayers_run. simpl. repeat split.
  intros before. rewrite renderAllPlayers_run. reflexivity.
Qed.

(** ** removePlayer *)

Lemma array_filter_by_id (player id : value) (ps : list value) :
  get_prop player "id" = Normal id ->
  Forall (fun p => coercible p = true) ps ->
  array_filter
    (fun p =>
       match get_prop p "id", get_prop player "id" with
       | Normal pid, Normal target => Normal (negb (strict_eq pid target))
       | Throw e, _ | _, Throw e => Throw e
       end) ps
  = Normal (List.filter (fun p => negb (has_id id p)) ps).
Proof.
  intros Hid. induction 1 as [|p ps Hp _ IH]; simpl; [reflexivity|].
  rewrite IH, Hid, (get_prop_coercible p "id" Hp). unfold has_id.
  destruct (strict_eq (get_prop_opt p "id") id); reflexivity.
Qed.

Lemma removePlayer_failed (player id : value) (id_text : string) (w : page) :
  get_prop player "id" = Normal id ->
  to_string id = Normal id_text ->
  request_failed (next_answer w) = true ->
  removePlayer player w =
  (Normal tt,
   with_console (console w ++ [removal_failure id_text])
     (with_sent (sent w ++ [delete_request id_text]) w)).
Proof.
  intros Hid Hs Hfail.
  unfold removePlayer, try_catch, bind, eval, fetch.
  rewrite Hid, Hs.
  destruct (next_answer w) as [|r]; simpl in *.
  - reflexivity.
  - rewrite Hfail. reflexivity.
Qed.

Lemma removePlayer_succeeded (player id : value) (id_text : string)
      (r : response) (w : page) :
  get_prop player "id" = Normal id ->
  to_string id = Normal id_text ->
  next_answer w = Responded r ->
  ok r = true ->
  Forall (fun p => coercible p = true) (players w) ->
  let kept := List.filter (fun p => negb (has_id id p)) (players w) in
  removePlayer player w =
  (Normal tt,
   with_ul (roster_of kept)
     (with_console
        (console w ++ roster_logs kept ++
         (if is_normal (roster_outcome kept) then [] else [removal_failure id_text]))
        (with_players kept (with_sent (sent w ++ [delete_request id_text]) w)))).
Proof.
  intros Hid Hs Hans Hok Hps kept.
  unfold removePlayer.
  match goal with |- context [array_filter ?f] => set (keep := f) end.
  unfold try_catch, bind, eval, fetch, get_players, set_players.
  rewrite Hid, Hs, Hans, Hok. simpl.
  subst keep. rewrite (array_filter_by_id player id _ Hid Hps).
  rewrite renderAllPlayers_run. simpl. fold kept.
  destruct (roster_outcome kept) as [[]|e]; simpl.
  - rewrite app_nil_r. reflexivity.
  - unfold console_error, emit, removal_failure.
    simpl. rewrite <- app_assoc. reflexivity.
Qed.

(** Whatever the argument and the state, a delete that does not
    succeed leaves the state and the container alone and never
    reaches the re-render. *)
Lemma removePlayer_failed_frame (player : value) (w : page) :
  request_failed (next_answer w) = true ->
  let w' := exec (removePlayer player) w in
  players w' = players w /\ ul w' = ul w /\
  List.filter is_render_call (console w') = List.filter is_render_call (console w).
Proof.
  intros Hfail. unfold exec.
  destruct (get_prop player "id") as [id|e] eqn:Hid.
  - destruct (to_string id) as [s|e] eqn:Hs.
    + rewrite (removePlayer_failed _ _ _ _ Hid Hs Hfail). simpl.
      rewrite List.filter_app. simpl. rewrite app_nil_r. auto.
    + unfold removePlayer, try_catch, bind, eval. rewrite Hid, Hs. simpl. auto.
  - unfold removePlayer, try_catch, bind, eval. rewrite Hid. simpl. auto.
Qed.

Lemma filter_keeps_all {A} (f : A -> bool) (l : list A) :
  Forall (fun x => f x = true) l -> List.filter f l = l.
Proof.
  induction 1 as [|x l Hx _ IH]; simpl; [reflexivity|]. rewrite Hx, IH. reflexivity.
Qed.

Lemma filter_drops_one {A} (f : A -> bool) (before after : list A) (x : A) :
  f x = false ->
  Forall (fun y => f y = true) (before ++ after) ->
  List.filter f (before ++ x :: after) = before ++ after.
Proof.
  intros Hx Hall. apply Forall_app in Hall as [Hb Ha].
  rewrite List.filter_app. simpl. rewrite Hx.
  rewrite (filter_keeps_all f before Hb), (filter_keeps_all f after Ha).
  reflexivity.
Qed.

(** C2. For a player whose id is a number (or any other primitive)
    and a state of readable entries: when the delete request succeeds,
    [state.players] becomes the entries whose id differs from the
    target, in their original order, so the entry with the target id
    is removed and every other entry stays where it was; when the
    request fails (network error or non-success status),
    [state.players] is unchanged, so are the container and the form,
    and the only trace is one [console.error]. *)
Theorem removePlayer_state (player id : value) (w : page) :
  get_prop player "id" = Normal id ->
  is_primitive id = true ->
  let w' := exec (removePlayer player) w in
  (forall r,
      next_answer w = Responded r -> ok r = true ->
      Forall (fun p => coercible p = true) (players w) ->
      players w' = List.filter (fun p => negb (has_id id p)) (players w) /\
      (forall before p after,
          players w = before ++ p :: after ->
          has_id id p = true ->
          Forall (fun q => has_id id q = false) (before ++ after) ->
          players w' = before ++ after)) /\
  (request_failed (next_answer w) = true ->
   outcome (removePlayer player) w = Normal tt /\
   players w' = players w /\ ul w' = ul w /\
   forms w' = forms w /\ doc_form w' = doc_form w /\
   exists id_text, console w' = console w ++ [removal_failure id_text]).
Proof.
  intros Hid Hprim w'. destruct (to_string_primitive id Hprim) as [id_text Hs].
  subst w'. unfold exec, outcome. split.
  - intros r Hans Hok Hps.
    rewrite (removePlayer_succeeded _ _ _ _ _ Hid Hs Hans Hok Hps). simpl.
    split; [reflexivity|].
    intros before p after Heq Hp Hothers. rewrite Heq.
    apply filter_drops_one.
    + rewrite Hp. reflexivity.
    + eapply Forall_impl; [exact Hothers|]. simpl. intros q ->. reflexivity.
  - intros Hfail. rewrite (removePlayer_failed _ _ _ _ Hid Hs Hfail). simpl.
    repeat split. exists id_text. reflexivity.
Qed.

Lemma removePlayer_state_witness :
  players (exec (removePlayer rex) (roster_page (always no_content))) = [spot]
  /\ players (exec (removePlayer rex) (roster_page (always not_found))) = [rex; spot].
Proof.
  split.
  - apply (proj2 (proj1 (removePlayer_state rex (JNum 1) (roster_page (always no_content))
                           eq_refl eq_refl)
                    (Response 204 None) eq_refl eq_refl
                    ltac:(repeat constructor))
             [] rex [spot]).
    + reflexivity.
    + reflexivity.
    + repeat constructor.
  - apply (proj2 (removePlayer_state rex (JNum 1) (roster_page (always not_found))
                    eq_refl eq_refl)).
    reflexivity.
Defined.

(** C10. After a successful [removePlayer] for a player with id x no
    entry with id x is left in [state.players]: every entry carrying
    that id is dropped, however many there were. *)
Theorem removePlayer_clears_id (player id : value) (r : response) (w : page) :
  get_prop player "id" = Normal id ->
  is_primitive id = true ->
  next_answer w = Responded r -> ok r = true ->
  Forall (fun p => coercible p = true) (players w) ->
  let w' := exec (removePlayer player) w in
  Forall (fun p => has_id id p = false) (players w') /\
  (length (players w') + length (List.filter (has_id id) (players w))
   = length (players w))%nat.
Proof.
  intros Hid Hprim Hans Hok Hps w'.
  destruct (to_string_primitive id Hprim) as [id_text Hs].
  subst w'. unfold exec.
  rewrite (removePlayer_succeeded _ _ _ _ _ Hid Hs Hans Hok Hps). simpl. split.
  - apply List.Forall_forall. intros p Hp. apply filter_In in Hp as [_ Hp].
    destruct (has_id id p); [discriminate|reflexivity].
  - rewrite Nat.add_comm. apply filter_length.
Qed.

Lemma removePlayer_clears_id_witness :
  Forall (fun p => has_id (JNum 1) p = false)
    (players (exec (removePlayer rex) (twins_page (always no_content))))
  /\ (length (players (exec (removePlayer rex) (twins_page (always no_content)))) + 2
      = 3)%nat.
Proof.
  apply (removePlayer_clears_id rex (JNum 1) (Response 204 None)
           (twins_page (always no_content))); try reflexivity.
  repeat constructor.
Defined.

Lemma card_logs_no_render_call (ps : list value) :
  List.filter is_render_call (card_logs ps) = [].
Proof.
  induction ps as [|p ps IH]; simpl; [reflexivity|].
  destruct (card_of p); simpl; [exact IH|reflexivity].
Qed.

Lemma roster_logs_one_render_call (ps : list value) :
  List.filter is_render_call (roster_logs ps) = [Called "renderAllPlayers"].
Proof.
  unfold roster_logs. destruct ps as [|p ps]; [reflexivity|].
  cbn [List.filter is_render_call String.eqb Ascii.eqb Bool.eqb].
  rewrite List.filter_app, card_logs_no_render_call.
  destruct (is_normal _); reflexivity.
Qed.

(** C5, as the script has it. A delete attempt that fails (network
    error or non-success status) never reaches [renderAllPlayers]: the
    call sits after the status check inside the [try], so the count of
    re-renders and the container are unchanged. Only a delete that
    succeeds re-renders, exactly once, from the filtered state. *)
Theorem removePlayer_rerender (player : value) (w : page) :
  let w' := exec (removePlayer player) w in
  (request_failed (next_answer w) = true ->
   render_calls w' = render_calls w /\ ul w' = ul w) /\
  (forall id r,
      get_prop player "id" = Normal id ->
      is_primitive id = true ->
      next_answer w = Responded r -> ok r = true ->
      Forall (fun p => coercible p = true) (players w) ->
      render_calls w' = S (render_calls w) /\
      ul w' = roster_of (players w')).
Proof.
  intros w'. split.
  - intros Hfail.
    destruct (removePlayer_failed_frame player w Hfail) as (_ & Hul & Hcalls).
    unfold render_calls. subst w'. rewrite Hcalls. auto.
  - intros id r Hid Hprim Hans Hok Hps.
    destruct (to_string_primitive id Hprim) as [id_text Hs].
    subst w'. unfold exec, render_calls.
    rewrite (removePlayer_succeeded _ _ _ _ _ Hid Hs Hans Hok Hps).
    cbn [fst snd console ul players with_ul with_console with_players with_sent].
    split; [|reflexivity].
    rewrite !List.filter_app, roster_logs_one_render_call.
    destruct (is_normal _); simpl; rewrite length_app; simpl; lia.
Qed.

Lemma removePlayer_rerender_witness :
  render_calls (exec (removePlayer rex) (roster_page (always not_found)))
  = render_calls (roster_page (always not_found))
  /\ render_calls (exec (removePlayer rex) (roster_page (always no_content)))
     = S (render_calls (roster_page (always no_content))).
Proof.
  split.
  - apply (proj1 (removePlayer_rerender rex (roster_page (always not_found)))).
    reflexivity.
  - apply (proj2 (removePlayer_rerender rex (roster_page (always no_content)))
             (JNum 1) (Response 204 None)); try reflexivity.
    repeat constructor.
Defined.

(** C5, as stated, fails: here the API answers the delete with 404
    and [renderAllPlayers] is not entered at all. *)
Lemma removePlayer_failure_rerenders_counterexample :
  request_failed (next_answer (roster_page (always not_found))) = true /\
  ~ In (Called "renderAllPlayers")
      (console (exec (removePlayer rex) (roster_page (always not_found)))).
Proof.
  split; [reflexivity|]. vm_compute. intros [H|[]]. discriminate.
Qed.

(** ** fetchSinglePlayer *)

Lemma fetchSinglePlayer_run (id : value) (id_text : string) (w : page) :
  to_string id = Normal id_text ->
  exists logs,
    fetchSinglePlayer id w =
    (Normal (detail_result (next_answer w)),
     with_console (console w ++ logs)
       (with_sent (sent w ++ [detail_request id_text]) w)).
Proof.
  intros Hs.
  unfold fetchSinglePlayer, detail_result. autounfold with script.
  rewrite Hs. destruct w as [ps u fs d n s c]; simpl.
  unfold next_answer; simpl.
  destruct (n (length s)) as [|[st b]]; simpl.
  - eexists. rewrite <- app_assoc. reflexivity.
  - unfold ok; simpl. destruct ((200 <=? st) && (st <=? 299)); simpl.
    + destruct b as [json|]; simpl.
      * destruct (get_prop json "data"); simpl;
          eexists; rewrite <- !app_assoc; reflexivity.
      * eexists. rewrite <- !app_assoc. reflexivity.
    + eexists. rewrite <- !app_assoc. reflexivity.
Qed.

Lemma detail_result_failed (a : fetch_result) :
  request_failed a = true -> detail_result a = JNull.
Proof.
  destruct a as [|r]; simpl; [reflexivity|].
  destruct (ok r); [discriminate|reflexivity].
Qed.

Lemma detail_result_unparsed (r : response) :
  body r = None -> detail_result (Responded r) = JNull.
Proof. intros H. simpl. rewrite H. destruct (ok r); reflexivity. Qed.

Lemma fetchSinglePlayer_outcome (id : value) (w : page) :
  is_primitive id = true ->
  outcome (fetchSinglePlayer id) w = Normal (detail_result (next_answer w)).
Proof.
  intros Hprim. destruct (to_string_primitive id Hprim) as [s Hs].
  destruct (fetchSinglePlayer_run id s w Hs) as [logs H].
  unfold outcome. rewrite H. reflexivity.
Qed.

(** C3. What [fetchSinglePlayer] returns. For a player id that is a
    number (or any other primitive) it never throws, and on a network
    error, a non-success status or a body that does not parse it
    returns [null]. On success (success status and a body that
    parses) it returns [json.data], the data wrapper of the envelope,
    whose [player] property is the nested player record: not the
    player object its JSDoc announces and its sibling [addNewPlayer]
    returns. *)
Theorem fetchSinglePlayer_result (id : value) (w : page) :
  is_primitive id = true ->
  let result := outcome (fetchSinglePlayer id) w in
  (exists v, result = Normal v) /\
  (forall r json data,
      next_answer w = Responded r -> ok r = true -> body r = Some json ->
      get_prop json "data" = Normal data ->
      result = Normal data /\ get_prop_opt data "player" = nested_player json) /\
  (request_failed (next_answer w) = true -> result = Normal JNull) /\
  (forall r, next_answer w = Responded r -> body r = None -> result = Normal JNull).
Proof.
  intros Hprim result. subst result. rewrite (fetchSinglePlayer_outcome _ _ Hprim).
  split; [eauto|]. split; [|split].
  - intros r json data -> Hok Hbody Hdata. simpl.
    rewrite Hok, Hbody, Hdata. split; [reflexivity|].
    unfold nested_player. rewrite (get_prop_opt_normal _ _ _ Hdata). reflexivity.
  - intros Hfail. rewrite (detail_result_failed _ Hfail). reflexivity.
  - intros r -> Hbody. rewrite (detail_result_unparsed _ Hbody). reflexivity.
Qed.

Lemma fetchSinglePlayer_result_witness :
  outcome (fetchSinglePlayer (JNum 1))
    (fresh_page (always (Responded (Response 200 (Some (player_envelope rex))))))
  = Normal (JObj 21 [("player", rex)])
  /\ outcome (fetchSinglePlayer (JNum 1)) (fresh_page (always not_found))
     = Normal JNull.
Proof.
  split.
  - apply (proj1 (proj2 (fetchSinglePlayer_result (JNum 1)
                           (fresh_page (always (Responded (Response 200 (Some (player_envelope rex))))))
                           eq_refl))
             (Response 200 (Some (player_envelope rex))) (player_envelope rex)
             (JObj 21 [("player", rex)])); reflexivity.
  - apply (proj2 (proj2 (fetchSinglePlayer_result (JNum 1) (fresh_page (always not_found))
                           eq_refl))).
    reflexivity.
Defined.

(** C3 at a failing input: the API answers 200 with
    [{success: true, data: {player: rex}}], and what comes back is the
    wrapper [{player: rex}], not the record [rex]. *)
Lemma fetchSinglePlayer_returns_record_counterexample :
  let w := fresh_page (always (Responded (Response 200 (Some (player_envelope rex))))) in
  nested_player (player_envelope rex) = rex /\
  outcome (fetchSinglePlayer (JNum 1)) w <> Normal rex /\
  outcome (fetchSinglePlayer (JNum 1)) w = Normal (JObj 21 [("player", rex)]).
Proof.
  cbv zeta. split; [reflexivity|]. split; [|reflexivity].
  vm_compute. discriminate.
Qed.

(** ** renderSinglePlayer *)

Lemma renderSinglePlayer_not_found_run (player id : value) (w : page) :
  get_prop player "id" = Normal id ->
  is_primitive id = true ->
  truthy (get_prop_opt (detail_result (next_answer w)) "player") = false ->
  outcome (renderSinglePlayer player) w = Normal tt /\
  ul (exec (renderSinglePlayer player) w) = [placeholder "Player not found."].
Proof.
  intros Hid Hprim Hmiss. destruct (to_string_primitive id Hprim) as [s Hs].
  unfold outcome, exec, renderSinglePlayer, bind, eval, set_ul. simpl.
  rewrite Hid.
  destruct (fetchSinglePlayer_run id s (with_ul [] w) Hs) as [logs ->].
  change (next_answer (with_ul [] w)) with (next_answer w).
  set (fetched := detail_result (next_answer w)) in *.
  unfold console_log, emit. simpl.
  destruct (truthy fetched) eqn:Ht; simpl.
  - rewrite (get_prop_coercible _ "player" (truthy_coercible _ Ht)).
    rewrite Hmiss. simpl. auto.
  - auto.
Qed.

(** C8. For a player whose id is a number (or any other primitive):
    when the detail fetch yields [null], or a value whose nested
    [player] field is missing (or otherwise falsy),
    [renderSinglePlayer] completes without throwing and leaves exactly
    one row in the container, the placeholder "Player not found.". In
    particular this is what a network error, a non-success status or
    a body that does not parse lead to. *)
Theorem renderSinglePlayer_not_found (player id : value) (w : page) :
  get_prop player "id" = Normal id ->
  is_primitive id = true ->
  let w' := exec (renderSinglePlayer player) w in
  (forall fetched,
      outcome (fetchSinglePlayer id) w = Normal fetched ->
      fetched = JNull \/ truthy (get_prop_opt fetched "player") = false ->
      outcome (renderSinglePlayer player) w = Normal tt /\
      ul w' = [placeholder "Player not found."]) /\
  (request_failed (next_answer w) = true \/
   (exists r, next_answer w = Responded r /\ body r = None) ->
   outcome (renderSinglePlayer player) w = Normal tt /\
   ul w' = [placeholder "Player not found."]).
Proof.
  intros Hid Hprim w'. subst w'. split.
  - intros fetched Hfetched Habsent.
    rewrite (fetchSinglePlayer_outcome _ _ Hprim) in Hfetched.
    injection Hfetched as <-.
    apply (renderSinglePlayer_not_found_run player id w Hid Hprim).
    destruct Habsent as [-> | H]; [reflexivity|exact H].
  - intros Hfail.
    apply (renderSinglePlayer_not_found_run player id w Hid Hprim).
    destruct Hfail as [Hfail | (r & Hr & Hnone)].
    + rewrite (detail_result_failed _ Hfail). reflexivity.
    + rewrite Hr, (detail_result_unparsed _ Hnone). reflexivity.
Qed.

Lemma renderSinglePlayer_not_found_witness :
  ul (exec (renderSinglePlayer rex) (roster_page (always not_found)))
  = [placeholder "Player not found."]
  /\ ul (exec (renderSinglePlayer rex)
           (roster_page (always (Responded (Response 200 (Some (JObj 30 [("data", JObj 31 [])])))))))
     = [placeholder "Player not found."].
Proof.
  split.
  - apply (proj2 (renderSinglePlayer_not_found rex (JNum 1)
                    (roster_page (always not_found)) eq_refl eq_refl)).
    left. reflexivity.
  - apply (proj1 (renderSinglePlayer_not_found rex (JNum 1)
                    (roster_page (always (Responded (Response 200 (Some (JObj 30 [("data", JObj 31 [])]))))))
                    eq_refl eq_refl) (JObj 31 [])).
    + reflexivity.
    + right. reflexivity.
Defined.

(** ** addNewPlayer *)

Lemma nested_player_truthy (json : value) :
  truthy (nested_player json) = true ->
  exists data,
    get_prop json "data" = Normal data /\
    get_prop data "player" = Normal (nested_player json).
Proof.
  unfold nested_player. intros Ht.
  destruct json as [| | | | | |l props]; try discriminate.
  simpl in *.
  destruct (default JUndefined (own_prop "data" props)) as [| | | | | |l' dprops];
    try discriminate.
  eexists. split; reflexivity.
Qed.

Lemma addNewPlayer_run (player : fields) (w : page) :
  exists logs,
    List.filter is_render_call logs = [] /\
    addNewPlayer player w =
    (Normal (create_result (next_answer w)),
     with_console (console w ++ logs)
       (with_sent (sent w ++ [Request POST API_URL (Some player)]) w)).
Proof.
  unfold addNewPlayer, create_result. autounfold with script.
  destruct w as [ps u fs d n s c]; unfold next_answer; simpl.
  destruct (n (length s)) as [|[st [json|]]]; simpl.
  - eexists. split; [|reflexivity]. reflexivity.
  - fold (nested_player json).
    destruct (truthy (nested_player json)) eqn:Ht; simpl.
    + destruct (nested_player_truthy json Ht) as (data & -> & ->). simpl.
      exists []. rewrite app_nil_r. split; reflexivity.
    + eexists. split; [|reflexivity]. reflexivity.
  - eexists. split; [|reflexivity]. reflexivity.
Qed.

(** C9. [addNewPlayer] never looks at the status of the response:
    whenever the parsed body holds a nested [data.player] record (any
    value JavaScript counts as true) that record is returned, whatever
    the status; whenever the body has no such field, or the request or
    the parse fails, the result is [null]; and it never throws. *)
Theorem addNewPlayer_result (player : fields) (w : page) :
  let result := outcome (addNewPlayer player) w in
  (exists v, result = Normal v) /\
  (forall st json,
      next_answer w = Responded (Response st (Some json)) ->
      truthy (nested_player json) = true ->
      result = Normal (nested_player json)) /\
  (forall st json,
      next_answer w = Responded (Response st (Some json)) ->
      nested_player json = JUndefined ->
      result = Normal JNull) /\
  (forall st, next_answer w = Responded (Response st None) -> result = Normal JNull) /\
  (next_answer w = Rejected -> result = Normal JNull) /\
  (forall w2 st st2 b,
      next_answer w = Responded (Response st b) ->
      next_answer w2 = Responded (Response st2 b) ->
      outcome (addNewPlayer player) w2 = result).
Proof.
  intros result. subst result. unfold outcome.
  destruct (addNewPlayer_run player w) as (logs & _ & ->). simpl.
  split; [eauto|]. repeat split.
  - intros st json -> Ht. simpl. rewrite Ht. reflexivity.
  - intros st json -> Hmiss. simpl. rewrite Hmiss. reflexivity.
  - intros st ->. reflexivity.
  - intros ->. reflexivity.
  - intros w2 st st2 b -> H2.
    destruct (addNewPlayer_run player w2) as (logs2 & _ & ->). simpl. rewrite H2.
    reflexivity.
Qed.

Lemma addNewPlayer_result_witness :
  outcome (addNewPlayer (Fields "Rex" "Lab" "" "Bench"))
    (fresh_page (always (Responded (Response 500 (Some (player_envelope rex))))))
  = Normal rex.
Proof.
  apply (proj1 (proj2 (addNewPlayer_result (Fields "Rex" "Lab" "" "Bench")
                         (fresh_page (always (Responded (Response 500 (Some (player_envelope rex))))))))
           500 (player_envelope rex)); reflexivity.
Defined.

(** ** init and the creation form *)

Lemma fetchAllPlayers_frame (w : page) :
  let w1 := exec fetchAllPlayers w in
  outcome fetchAllPlayers w = Normal tt /\
  forms w1 = forms w /\ doc_form w1 = doc_form w /\
  sent w1 = sent w ++ [list_request] /\
  List.filter is_render_call (console w1) = List.filter is_render_call (console w) /\
  (exists more, console w1 = console w ++ more).
Proof.
  unfold exec, outcome. rewrite fetchAllPlayers_run. simpl.
  split; [reflexivity|].
  destruct (next_answer w) as [|[st [json|]]]; simpl;
    repeat match goal with |- context [if ?b then _ else _] => destruct b end;
    simpl; rewrite List.filter_app; simpl; rewrite app_nil_r; eauto 10.
Qed.

Lemma init_rebinds (w : page) (i : nat) (f : form_element) :
  doc_form w = Some i ->
  forms w !! i = Some f ->
  let w' := exec init w in
  sent w' = sent w ++ [list_request] /\
  render_calls w' = S (render_calls w) /\
  visible_fields w' = Some (values f) /\
  (forall k g, forms w !! k = Some g -> forms w' !! k = Some g) /\
  (exists more, console w' = console w ++ more).
Proof.
  intros Hdoc Hf.
  destruct (fetchAllPlayers_frame w) as (Ho & Hforms & Hd & Hsent & Hcalls & more & Hmore).
  unfold exec, outcome in *. unfold init, bind.
  destruct (fetchAllPlayers w) as [c w1]. simpl in *. subst c.
  rewrite renderAllPlayers_run.
  assert (Hrender :
    render_calls (with_ul (roster_of (players w1))
                    (with_console (console w1 ++ roster_logs (players w1)) w1))
    = S (render_calls w)).
  { unfold render_calls. simpl.
    rewrite List.filter_app, roster_logs_one_render_call, Hcalls, length_app.
    simpl. lia. }
  destruct (roster_outcome (players w1)) as [[]|e].
  - unfold renderNewPlayerForm. simpl. rewrite Hd, Hdoc, Hforms, Hf. simpl.
    split; [exact Hsent|]. split; [exact Hrender|]. split.
    + unfold visible_fields. simpl.
      rewrite lookup_app_r by lia. rewrite Nat.sub_diag. reflexivity.
    + split.
      * intros k g Hk. apply lookup_app_l_Some. exact Hk.
      * rewrite Hmore, <- app_assoc. eauto.
  - simpl. split; [exact Hsent|]. split; [exact Hrender|]. split.
    + unfold visible_fields. simpl. rewrite Hd, Hdoc, Hforms, Hf. reflexivity.
    + split.
      * intros k g Hk. rewrite Hforms. exact Hk.
      * rewrite Hmore, <- app_assoc. eauto.
Qed.

Lemma submit_handler_run (w : page) (form newForm : nat) (f : form_element) :
  doc_form w = Some newForm ->
  forms w !! newForm = Some f ->
  form <> newForm ->
  let w' := exec (submit_handler (Listener form newForm)) w in
  outcome (submit_handler (Listener form newForm)) w = Normal tt /\
  In DefaultPrevented (console w') /\
  sent w' = sent w ++ [create_request (values f); list_request] /\
  render_calls w' = S (render_calls w) /\
  (forall g, forms w !! form = Some g -> forms w' !! form = Some (reset_form g)) /\
  visible_fields w' = Some (values f).
Proof.
  intros Hdoc Hf Hne.
  unfold exec, outcome, submit_handler, bind, emit, read_fields, reset, unawaited.
  simpl. rewrite Hf.
  destruct (addNewPlayer_run (values f)
              (with_console (console w ++ [DefaultPrevented]) w))
    as (logs & Hlogs & ->).
  simpl.
  set (w2 := with_forms _ _ _).
  assert (H2doc : doc_form w2 = Some newForm) by exact Hdoc.
  assert (H2f : forms w2 !! newForm = Some f).
  { subst w2. simpl. rewrite list_lookup_alter_ne by exact Hne. exact Hf. }
  destruct (init_rebinds w2 newForm f H2doc H2f)
    as (Hsent & Hcalls & Hvis & Hkeep & more & Hmore).
  unfold exec in *. split; [reflexivity|]. split; [|split; [|split; [|split]]].
  - rewrite Hmore. subst w2. simpl. rewrite !in_app_iff. simpl. auto.
  - rewrite Hsent. subst w2. simpl. rewrite <- app_assoc. reflexivity.
  - rewrite Hcalls. subst w2. unfold render_calls. simpl.
    rewrite !List.filter_app, Hlogs. simpl. rewrite !app_nil_r. reflexivity.
  - intros g Hg. apply Hkeep. subst w2. simpl.
    rewrite list_lookup_alter, Hg. case_decide; [reflexivity|congruence].
  - exact Hvis.
Qed.

(** C4. On a page whose form was bound by [renderNewPlayerForm], the
    user fills in the form and submits it. The handler prevents the
    default action, sends the create request with exactly the values
    read from the form, then the list request of [init] follows and
    the list is rendered again, whatever the create request got back.
    But [form.reset()] is called on [form], the element that
    [renderNewPlayerForm] took out of the document, not on [newForm]:
    the form on the page still holds what the user typed. *)
Theorem submit_keeps_typed_values
        (w : page) (i : nat) (f : form_element) (typed : fields) :
  doc_form w = Some i ->
  forms w !! i = Some f ->
  let filled := exec (type_into_form typed) (exec renderNewPlayerForm w) in
  let w' := exec submit_form filled in
  visible_fields filled = Some typed /\
  In DefaultPrevented (console w') /\
  sent w' = sent w ++ [create_request typed; list_request] /\
  render_calls w' = S (render_calls w) /\
  forms w' !! i = Some (reset_form f) /\
  visible_fields w' = Some typed.
Proof.
  intros Hdoc Hf.
  assert (Hlt : (i < length (forms w))%nat) by (eapply lookup_lt_Some; eauto).
  unfold exec, renderNewPlayerForm, type_into_form. rewrite Hdoc, Hf. simpl.
  rewrite alter_app_r_alt by lia. rewrite Nat.sub_diag. simpl.
  set (n := length (forms w)).
  set (g := {| values := typed; defaults := defaults f;
               listeners := [Listener i n] |}).
  match goal with |- visible_fields ?x = _ /\ _ => set (filled := x) end.
  assert (Hg : forms filled !! n = Some g).
  { subst filled. simpl. apply list_lookup_middle. reflexivity. }
  split.
  { unfold visible_fields. change (doc_form filled) with (Some n).
    cbv beta iota. rewrite Hg. reflexivity. }
  unfold submit_form. change (doc_form filled) with (Some n).
  cbv beta iota. rewrite Hg.
  change (listeners g) with [Listener i n].
  unfold for_each, bind, unawaited, ret. simpl.
  assert (Hne : i <> n) by lia.
  destruct (submit_handler_run filled i n g eq_refl Hg Hne)
    as (_ & Hprevented & Hsent & Hcalls & Hreset & Hvisible).
  unfold exec in *. repeat split; try assumption.
  apply Hreset. subst filled. simpl. apply lookup_app_l_Some. exact Hf.
Qed.

Lemma submit_keeps_typed_values_witness :
  visible_fields
    (exec submit_form
       (exec (type_into_form rex_fields)
          (exec renderNewPlayerForm (fresh_page (always created)))))
  = Some rex_fields.
Proof.
  apply (submit_keeps_typed_values (fresh_page (always created)) 0
           (Form blank blank []) rex_fields); reflexivity.
Defined.

(** The same submission evaluated: the form was blank before the user
    typed, the create request succeeded, and afterwards the form on
    the page shows the submitted values while the element that was
    reset is the detached original. *)
Example submit_rex_not_reset :
  let w' := exec submit_form
              (exec (type_into_form rex_fields) (exec init (fresh_page (always created)))) in
  visible_fields w' = Some rex_fields /\
  visible_fields w' <> Some blank /\
  values <$> forms w' !! 0%nat = Some blank /\
  sent w' = [list_request; create_request rex_fields; list_request].
Proof. vm_compute. repeat split. discriminate. Qed.

(** ** The script on sample pages *)

(** Start-up on a roster of two: two cards, the form rebound, one
    request. *)
Example init_roster_of_two :
  let w' := exec init
              (fresh_page (always (Responded (Response 200 (Some (list_envelope [rex; spot])))))) in
  players w' = [rex; spot] /\
  map shown_name (ul w') = [Some [Text "Rex"]; Some [Text "Spot"]] /\
  map shown_id (ul w') = [Some [Text "ID: 1"]; Some [Text "ID: 2"]] /\
  doc_form w' = Some 1%nat /\
  sent w' = [list_request].
Proof. vm_compute. repeat split. Qed.

(** The detail card of a record without image. *)
Example renderSinglePlayer_details :
  ul (exec (renderSinglePlayer rex)
        (roster_page (always (Responded (Response 200 (Some (player_envelope rex_details)))))))
  = [Elem "li" [] None
       [ Elem "h3" [] None [Text "Rex"];
         Elem "h3" [] None [Text "ID: 1"];
         Elem "h4" [] None [Text "Breed: Lab"];
         Elem "h4" [] None [Text "Status: bench"];
         Elem "img" [("src", ""); ("alt", "Rex")] None [];
         Elem "button" [] (Some BackToList) [Text "Back to all players"] ]].
Proof. reflexivity. Qed.

(** Clicking "Delete" on the first card of a roster of two. *)
Example click_delete_rex :
  let w' := exec (click (RemoveFromRoster rex)) (roster_page (always no_content)) in
  players w' = [spot] /\
  map shown_name (ul w') = [Some [Text "Spot"]] /\
  sent w' = [delete_request "1"].
Proof. vm_compute. repeat split. Qed.

(** ** Outside the data model

    The hypotheses of the statements above are needed: the script
    checks none of what the API sends. *)

(** An entry that is [null] makes the [filter] callback throw; the
    [catch] of [removePlayer] swallows it and the state keeps the
    deleted player. *)
Example removePlayer_null_entry :
  let w' := exec (removePlayer rex) (broken_roster_page (always no_content)) in
  players w' = [rex; JNull] /\
  console w' = [removal_failure "1"].
Proof. split; reflexivity. Qed.

(** The same entry stops [renderAllPlayers] after the first card. *)
Example renderAllPlayers_null_entry :
  outcome renderAllPlayers (broken_roster_page (always Rejected)) = Throw TypeError /\
  length (ul (exec renderAllPlayers (broken_roster_page (always Rejected)))) = 1%nat.
Proof. split; reflexivity. Qed.

(** An id that cannot be converted to a string throws in the [try] of
    [fetchSinglePlayer] and again in its [catch], from where it
    escapes; no request is sent. *)
Example fetchSinglePlayer_odd_id :
  outcome (fetchSinglePlayer odd_id) (fresh_page (always not_found)) = Throw TypeError /\
  sent (exec (fetchSinglePlayer odd_id) (fresh_page (always not_found))) = [].
Proof. split; reflexivity. Qed.

(** A [player] field that is present but falsy counts as missing. *)
Example addNewPlayer_falsy_player :
  outcome (addNewPlayer rex_fields)
    (fresh_page (always (Responded (Response 200 (Some (player_envelope (JNum 0)))))))
  = Normal JNull.
Proof. reflexivity. Qed.

(** ** Frames

    Relations between the page before and after that every step of a
    computation respects are respected by the whole computation. *)

Section Frame.

Variable R : page -> page -> Prop.
Hypothesis R_refl : forall w, R w w.
Hypothesis R_trans : forall a b c, R a b -> R b c -> R a c.

Lemma framed_ret {A} (a : A) : framed R (ret a).
Proof. intros w. apply R_refl. Qed.

Lemma framed_throw {A} (e : exn) : framed R (@throw A e).
Proof. intros w. apply R_refl. Qed.

Lemma framed_eval {A} (c : completion A) : framed R (eval c).
Proof. intros w. apply R_refl. Qed.

Lemma framed_bind {A B} (m : M A) (k : A -> M B) :
  framed R m -> (forall a, framed R (k a)) -> framed R (bind m k).
Proof.
  intros Hm Hk w. specialize (Hm w). unfold exec, bind in *.
  destruct (m w) as [[a|e] w1]; simpl in *; [|exact Hm].
  eapply R_trans; [exact Hm|]. apply Hk.
Qed.

Lemma framed_try_catch {A} (m : M A) (h : exn -> M A) :
  framed R m -> (forall e, framed R (h e)) -> framed R (try_catch m h).
Proof.
  intros Hm Hh w. specialize (Hm w). unfold exec, try_catch in *.
  destruct (m w) as [[a|e] w1]; simpl in *; [exact Hm|].
  eapply R_trans; [exact Hm|]. apply Hh.
Qed.

Lemma framed_unawaited (m : M unit) : framed R m -> framed R (unawaited m).
Proof. intros Hm w. exact (Hm w). Qed.

Lemma framed_if {A} (b : bool) (m1 m2 : M A) :
  framed R m1 -> framed R m2 -> framed R (if b then m1 else m2).
Proof. destruct b; auto. Qed.

Lemma framed_for_each {A} (xs : list A) (f : A -> M unit) :
  (forall x, framed R (f x)) -> framed R (for_each xs f).
Proof.
  intros Hf. induction xs as [|x xs IH]; simpl.
  - apply framed_ret.
  - apply framed_bind; [apply Hf|intros _; exact IH].
Qed.

Lemma framed_response_json (r : response) : framed R (response_json r).
Proof. unfold response_json. destruct (body r); [apply framed_ret|apply framed_throw]. Qed.

Lemma framed_get_players : framed R get_players.
Proof. intros w. apply R_refl. Qed.

End Frame.

Create HintDb frame.

#[local] Hint Resolve framed_ret framed_throw framed_eval framed_bind
  framed_try_catch framed_unawaited framed_if framed_for_each
  framed_response_json framed_get_players : frame.

Ltac frame Hrefl Htrans :=
  repeat first
    [ exact Hrefl | exact Htrans
    | apply framed_ret | apply framed_throw | apply framed_eval
    | apply framed_get_players | apply framed_response_json
    | apply framed_bind | apply framed_try_catch | apply framed_if
    | apply framed_for_each | apply framed_unawaited
    | solve [auto with frame nocore]
    | assumption
    | match goal with H : forall _, framed _ _ |- _ => apply H end
    | match goal with |- forall _, _ => intro end ].

Lemma forms_kept_refl (w : page) : forms_kept w w.
Proof. split; reflexivity. Qed.

Lemma forms_kept_trans (a b c : page) :
  forms_kept a b -> forms_kept b c -> forms_kept a c.
Proof. unfold forms_kept. intros [-> ->] [-> ->]. split; reflexivity. Qed.

Lemma players_kept_refl (w : page) : players_kept w w.
Proof. reflexivity. Qed.

Lemma players_kept_trans (a b c : page) :
  players_kept a b -> players_kept b c -> players_kept a c.
Proof. unfold players_kept. intros -> ->. reflexivity. Qed.

Lemma sent_kept_refl (w : page) : sent_kept w w.
Proof. reflexivity. Qed.

Lemma sent_kept_trans (a b c : page) :
  sent_kept a b -> sent_kept b c -> sent_kept a c.
Proof. unfold sent_kept. intros -> ->. reflexivity. Qed.

Lemma forms_kept_emit (e : event) : framed forms_kept (emit e).
Proof. intros w. split; reflexivity. Qed.

Lemma forms_kept_console_log (l : string) : framed forms_kept (console_log l).
Proof. apply forms_kept_emit. Qed.

Lemma forms_kept_console_error (l : string) : framed forms_kept (console_error l).
Proof. apply forms_kept_emit. Qed.

Lemma forms_kept_fetch (rq : request) : framed forms_kept (fetch rq).
Proof. intros w. unfold exec, fetch. destruct (next_answer w); split; reflexivity. Qed.

Lemma forms_kept_set_players (ps : list value) : framed forms_kept (set_players ps).
Proof. intros w. split; reflexivity. Qed.

Lemma forms_kept_set_ul (ns : list node) : framed forms_kept (set_ul ns).
Proof. intros w. split; reflexivity. Qed.

Lemma forms_kept_append_ul (n : node) : framed forms_kept (append_ul n).
Proof. intros w. split; reflexivity. Qed.

Lemma players_kept_emit (e : event) : framed players_kept (emit e).
Proof. intros w. reflexivity. Qed.

Lemma players_kept_console_log (l : string) : framed players_kept (console_log l).
Proof. apply players_kept_emit. Qed.

Lemma players_kept_console_error (l : string) : framed players_kept (console_error l).
Proof. apply players_kept_emit. Qed.

Lemma players_kept_fetch (rq : request) : framed players_kept (fetch rq).
Proof. intros w. unfold exec, fetch. destruct (next_answer w); reflexivity. Qed.

Lemma players_kept_set_ul (ns : list node) : framed players_kept (set_ul ns).
Proof. intros w. reflexivity. Qed.

Lemma players_kept_append_ul (n : node) : framed players_kept (append_ul n).
Proof. intros w. reflexivity. Qed.

#[local] Hint Resolve forms_kept_emit forms_kept_console_log
  forms_kept_console_error forms_kept_fetch forms_kept_set_players
  forms_kept_set_ul forms_kept_append_ul players_kept_emit
  players_kept_console_log players_kept_console_error players_kept_fetch
  players_kept_set_ul players_kept_append_ul : frame.

Lemma forms_kept_fetchAllPlayers : framed forms_kept fetchAllPlayers.
Proof. unfold fetchAllPlayers. frame forms_kept_refl forms_kept_trans. Qed.

Lemma forms_kept_fetchSinglePlayer (id : value) :
  framed forms_kept (fetchSinglePlayer id).
Proof. unfold fetchSinglePlayer. frame forms_kept_refl forms_kept_trans. Qed.

Lemma forms_kept_addNewPlayer (player : fields) :
  framed forms_kept (addNewPlayer player).
Proof. unfold addNewPlayer. frame forms_kept_refl forms_kept_trans. Qed.

Lemma forms_kept_renderAllPlayers : framed forms_kept renderAllPlayers.
Proof.
  unfold renderAllPlayers, render_card. frame forms_kept_refl forms_kept_trans.
Qed.

Lemma forms_kept_removePlayer (player : value) :
  framed forms_kept (removePlayer player).
Proof.
  pose proof forms_kept_renderAllPlayers.
  unfold removePlayer. frame forms_kept_refl forms_kept_trans.
Qed.

Lemma forms_kept_renderSinglePlayer (player : value) :
  framed forms_kept (renderSinglePlayer player).
Proof.
  pose proof forms_kept_fetchSinglePlayer.
  unfold renderSinglePlayer. frame forms_kept_refl forms_kept_trans.
Qed.

Lemma players_kept_fetchSinglePlayer (id : value) :
  framed players_kept (fetchSinglePlayer id).
Proof. unfold fetchSinglePlayer. frame players_kept_refl players_kept_trans. Qed.

Lemma players_kept_renderSinglePlayer (player : value) :
  framed players_kept (renderSinglePlayer player).
Proof.
  pose proof players_kept_fetchSinglePlayer.
  unfold renderSinglePlayer. frame players_kept_refl players_kept_trans.
Qed.

Lemma players_kept_addNewPlayer (player : fields) :
  framed players_kept (addNewPlayer player).
Proof. unfold addNewPlayer. frame players_kept_refl players_kept_trans. Qed.

(** ** More about the remote client *)

Lemma fetchAllPlayers_players (w : page) :
  players (exec fetchAllPlayers w) = listed (next_answer w).
Proof.
  unfold exec, listed. rewrite fetchAllPlayers_run. cbn [snd].
  destruct (next_answer w) as [|[st [json|]]]; try reflexivity.
  repeat match goal with |- context [if ?b then _ else _] => destruct b end;
    reflexivity.
Qed.

(** X1. [fetchAllPlayers] sends exactly one request, a GET of the
    collection without body, whatever comes back; it leaves the roster
    container and the forms alone; and the state it leaves does not
    depend on the state it found: the list is replaced wholesale. *)
Theorem fetchAllPlayers_one_request (w : page) :
  let w' := exec fetchAllPlayers w in
  sent w' = sent w ++ [list_request] /\
  ul w' = ul w /\ forms w' = forms w /\ doc_form w' = doc_form w /\
  players w' = listed (next_answer w) /\
  (forall before, players (exec fetchAllPlayers (with_players before w)) = players w').
Proof.
  cbv zeta. split; [|split; [|split; [|split; [|split]]]].
  - apply fetchAllPlayers_frame.
  - unfold exec. rewrite fetchAllPlayers_run. cbn [snd].
    destruct (next_answer w) as [|[st [json|]]]; try reflexivity.
    repeat match goal with |- context [if ?b then _ else _] => destruct b end;
      reflexivity.
  - apply forms_kept_fetchAllPlayers.
  - apply forms_kept_fetchAllPlayers.
  - apply fetchAllPlayers_players.
  - intros before. rewrite !fetchAllPlayers_players. reflexivity.
Qed.

(** X2. For an id that prints as [id_text], [fetchSinglePlayer] sends
    exactly one request, a GET of [API_URL/id_text], and changes
    neither the state nor the container nor the forms. *)
Theorem fetchSinglePlayer_one_request (id : value) (id_text : string) (w : page) :
  to_string id = Normal id_text ->
  let w' := exec (fetchSinglePlayer id) w in
  sent w' = sent w ++ [detail_request id_text] /\
  players w' = players w /\ ul w' = ul w /\
  forms w' = forms w /\ doc_form w' = doc_form w.
Proof.
  intros Hs. destruct (fetchSinglePlayer_run id id_text w Hs) as [logs H].
  cbv zeta. unfold exec. rewrite H. simpl. auto.
Qed.

Lemma fetchSinglePlayer_one_request_witness :
  sent (exec (fetchSinglePlayer (JNum 7)) (roster_page (always not_found)))
  = [Request GET
       "https://fsa-puppy-bowl.herokuapp.com/api/2409-GHP-ET-WEB-PT/players/7"
       None].
Proof.
  apply (fetchSinglePlayer_one_request (JNum 7) "7"
           (roster_page (always not_found)) eq_refl).
Defined.

(** X3. When the id cannot be converted to a string, the template
    literal throws inside the [try] of [fetchSinglePlayer] and again
    inside its [catch]: no request is sent, nothing but the first log
    line is written, and the exception escapes the call. *)
Theorem fetchSinglePlayer_unprintable_id (id : value) (e : exn) (w : page) :
  to_string id = Throw e ->
  outcome (fetchSinglePlayer id) w = Throw e /\
  sent (exec (fetchSinglePlayer id) w) = sent w /\
  console (exec (fetchSinglePlayer id) w)
  = console w ++ [ConsoleLog "Fetching player with ID:"].
Proof.
  intros Hs. unfold outcome, exec, fetchSinglePlayer. autounfold with script.
  rewrite Hs. simpl. auto.
Qed.

Lemma fetchSinglePlayer_unprintable_id_witness :
  outcome (fetchSinglePlayer odd_id) (fresh_page (always not_found))
  = Throw TypeError.
Proof.
  apply (fetchSinglePlayer_unprintable_id odd_id TypeError
           (fresh_page (always not_found)) eq_refl).
Defined.

(** X4. A success status with a body that parses to something other
    than [null] but has no [data] property makes [fetchSinglePlayer]
    return [undefined], not [null]; a body that parses to [null]
    makes it return [null], through the [catch]. *)
Theorem fetchSinglePlayer_missing_data (id : value) (r : response) (w : page) :
  is_primitive id = true ->
  next_answer w = Responded r ->
  ok r = true ->
  (forall json,
      body r = Some json -> coercible json = true ->
      get_prop_opt json "data" = JUndefined ->
      outcome (fetchSinglePlayer id) w = Normal JUndefined) /\
  (body r = Some JNull -> outcome (fetchSinglePlayer id) w = Normal JNull).
Proof.
  intros Hprim Hans Hok. rewrite (fetchSinglePlayer_outcome _ _ Hprim), Hans.
  simpl. rewrite Hok. split.
  - intros json -> Hc Hmiss. rewrite (get_prop_coercible _ _ Hc), Hmiss. reflexivity.
  - intros ->. reflexivity.
Qed.

Lemma fetchSinglePlayer_missing_data_witness :
  outcome (fetchSinglePlayer (JNum 1))
    (fresh_page (always (Responded (Response 200 (Some (JObj 30 []))))))
  = Normal JUndefined.
Proof.
  apply (proj1 (fetchSinglePlayer_missing_data (JNum 1) (Response 200 (Some (JObj 30 [])))
                  (fresh_page (always (Responded (Response 200 (Some (JObj 30 []))))))
                  eq_refl eq_refl eq_refl) (JObj 30 []));
    reflexivity.
Defined.

(** X5. [addNewPlayer] sends exactly one request, a POST of the
    collection carrying the fields it was given, and changes neither
    the state nor the container nor the forms: the created record is
    not inserted into [state.players]. *)
Theorem addNewPlayer_one_request (player : fields) (w : page) :
  let w' := exec (addNewPlayer player) w in
  sent w' = sent w ++ [create_request player] /\
  players w' = players w /\ ul w' = ul w /\
  forms w' = forms w /\ doc_form w' = doc_form w.
Proof.
  destruct (addNewPlayer_run player w) as (logs & _ & H).
  cbv zeta. unfold exec. rewrite H. simpl. auto.
Qed.

(** ** More about removePlayer *)

Lemma array_filter_sublist {A} (keep : A -> completion bool) (xs ys : list A) :
  array_filter keep xs = Normal ys -> sublist ys xs.
Proof.
  revert ys. induction xs as [|x xs IH]; simpl; intros ys H.
  - injection H as <-. constructor.
  - destruct (keep x) as [b|]; [|discriminate].
    destruct (array_filter keep xs) as [zs|]; [|discriminate].
    injection H as <-. destruct b; constructor; apply IH; reflexivity.
Qed.

Lemma removePlayer_run (player id : value) (id_text : string) (w : page) :
  get_prop player "id" = Normal id ->
  to_string id = Normal id_text ->
  exists kept shown logs,
    sublist kept (players w) /\
    removePlayer player w =
    (Normal tt,
     with_ul shown
       (with_console (console w ++ logs)
          (with_players kept
             (with_sent (sent w ++ [delete_request id_text]) w)))).
Proof.
  intros Hid Hs. unfold removePlayer.
  match goal with |- context [array_filter ?f] => set (keep := f) end.
  unfold try_catch, bind, eval, fetch, get_players, set_players.
  rewrite Hid, Hs. destruct w as [ps u fs d n s c]. unfold next_answer. simpl.
  destruct (n (length s)) as [|r]; simpl.
  - exists ps, u. eexists. split; [reflexivity|]. reflexivity.
  - destruct (ok r); simpl.
    + destruct (array_filter keep ps) as [kept|e] eqn:Hkept; simpl.
      * rewrite renderAllPlayers_run. simpl.
        exists kept, (roster_of kept).
        destruct (roster_outcome kept) as [[]|e]; simpl.
        -- eexists. split; [eapply array_filter_sublist; exact Hkept|]. reflexivity.
        -- eexists. split; [eapply array_filter_sublist; exact Hkept|].
           unfold console_error, emit. simpl. rewrite <- app_assoc. reflexivity.
      * exists ps, u. eexists. split; [reflexivity|]. reflexivity.
    + exists ps, u. eexists. split; [reflexivity|]. reflexivity.
Qed.

(** X6. For a player whose id can be read and printed,
    [removePlayer] never throws, whatever the state holds and whatever
    the API answers, and it sends exactly one request, a DELETE of
    [API_URL/id_text]; the forms are left alone. *)
Theorem removePlayer_completes (player id : value) (id_text : string) (w : page) :
  get_prop player "id" = Normal id ->
  to_string id = Normal id_text ->
  let w' := exec (removePlayer player) w in
  outcome (removePlayer player) w = Normal tt /\
  sent w' = sent w ++ [delete_request id_text] /\
  forms w' = forms w /\ doc_form w' = doc_form w.
Proof.
  intros Hid Hs.
  destruct (removePlayer_run player id id_text w Hid Hs)
    as (kept & shown & logs & _ & H).
  cbv zeta. unfold outcome, exec. rewrite H. simpl. auto.
Qed.

Lemma removePlayer_completes_witness :
  outcome (removePlayer rex) (broken_roster_page (always no_content)) = Normal tt /\
  sent (exec (removePlayer rex) (broken_roster_page (always no_content)))
  = [Request DELETE
       "https://fsa-puppy-bowl.herokuapp.com/api/2409-GHP-ET-WEB-PT/players/1"
       None].
Proof.
  destruct (removePlayer_completes rex (JNum 1) "1"
              (broken_roster_page (always no_content)) eq_refl eq_refl)
    as (Ho & Hsent & _).
  split; [exact Ho|exact Hsent].
Defined.

(** X7. [removePlayer] only ever removes: for every argument, every
    state and every answer of the API, the entries of [state.players]
    afterwards are entries it held before, in the same relative order. *)
Theorem removePlayer_only_removes (player : value) (w : page) :
  sublist (players (exec (removePlayer player) w)) (players w).
Proof.
  destruct (get_prop player "id") as [id|e] eqn:Hid.
  - destruct (to_string id) as [id_text|e] eqn:Hs.
    + destruct (removePlayer_run player id id_text w Hid Hs)
        as (kept & shown & logs & Hsub & H).
      unfold exec. rewrite H. exact Hsub.
    + unfold exec, removePlayer, try_catch, bind, eval. rewrite Hid, Hs. reflexivity.
  - unfold exec, removePlayer, try_catch, bind, eval. rewrite Hid. reflexivity.
Qed.

Lemma filter_twice {A} (f : A -> bool) (l : list A) :
  List.filter f (List.filter f l) = List.filter f l.
Proof.
  apply filter_keeps_all, List.Forall_forall.
  intros x Hx. apply filter_In in Hx. tauto.
Qed.

(** X8. Deleting the same player twice, both requests succeeding,
    leaves the state the first deletion left: the second finds no
    entry with that id. *)
Theorem removePlayer_twice (player id : value) (r1 r2 : response) (w : page) :
  get_prop player "id" = Normal id ->
  is_primitive id = true ->
  Forall (fun p => coercible p = true) (players w) ->
  next_answer w = Responded r1 -> ok r1 = true ->
  let once := exec (removePlayer player) w in
  next_answer once = Responded r2 -> ok r2 = true ->
  players (exec (removePlayer player) once) = players once /\
  ul (exec (removePlayer player) once) = ul once.
Proof.
  intros Hid Hprim Hps Hans1 Hok1 once Hans2 Hok2.
  destruct (to_string_primitive id Hprim) as [id_text Hs].
  pose proof (removePlayer_succeeded _ _ _ _ _ Hid Hs Hans1 Hok1 Hps) as H1.
  cbv zeta in H1.
  assert (Hplayers : players once
                     = List.filter (fun p => negb (has_id id p)) (players w))
    by (unfold once, exec; rewrite H1; reflexivity).
  assert (Hul : ul once = roster_of (players once))
    by (rewrite Hplayers; unfold once, exec; rewrite H1; reflexivity).
  assert (Hps2 : Forall (fun p => coercible p = true) (players once)).
  { rewrite Hplayers. apply List.Forall_forall. intros p Hp.
    apply filter_In in Hp as [Hp _].
    eapply List.Forall_forall in Hps; eauto. }
  pose proof (removePlayer_succeeded _ _ _ _ _ Hid Hs Hans2 Hok2 Hps2) as H2.
  cbv zeta in H2.
  change (exec (removePlayer player) once) with (removePlayer player once).2.
  rewrite H2. cbn [snd players ul with_ul with_console with_players with_sent].
  rewrite Hul, Hplayers, filter_twice. auto.
Qed.

Lemma removePlayer_twice_witness :
  players (exec (removePlayer rex)
             (exec (removePlayer rex) (twins_page (always no_content))))
  = players (exec (removePlayer rex) (twins_page (always no_content))).
Proof.
  apply (removePlayer_twice rex (JNum 1) (Response 204 None) (Response 204 None)
           (twins_page (always no_content)));
    try reflexivity.
  repeat constructor.
Defined.

(** ** More about the detail view *)

Lemma renderSinglePlayer_run (player id : value) (id_text : string) (w : page) :
  get_prop player "id" = Normal id ->
  to_string id = Normal id_text ->
  exists logs,
    renderSinglePlayer player w =
    let fetched := detail_result (next_answer w) in
    let w1 := with_console (console w ++ logs)
                (with_sent (sent w ++ [detail_request id_text]) w) in
    if truthy fetched && truthy (get_prop_opt fetched "player")
    then match detail_card_of (get_prop_opt fetched "player") with
         | Normal card => (Normal tt, with_ul [card] w1)
         | Throw e => (Throw e, with_ul [] w1)
         end
    else (Normal tt, with_ul [placeholder "Player not found."] w1).
Proof.
  intros Hid Hs.
  unfold renderSinglePlayer, bind, eval, set_ul. simpl. rewrite Hid.
  destruct (fetchSinglePlayer_run id id_text (with_ul [] w) Hs) as [logs ->].
  change (next_answer (with_ul [] w)) with (next_answer w).
  set (fetched := detail_result (next_answer w)).
  exists (logs ++ [ConsoleLog "Fetched player for details:"]).
  unfold console_log, emit, append_ul. cbv zeta.
  destruct w as [ps u fs d n s c]. simpl.
  destruct (truthy fetched) eqn:Hf; simpl; rewrite <- ?app_assoc; [|reflexivity].
  rewrite (get_prop_coercible _ "player" (truthy_coercible _ Hf)).
  set (p := get_prop_opt fetched "player").
  destruct (truthy p) eqn:Hp; simpl; rewrite <- ?app_assoc; [|reflexivity].
  pose proof (truthy_coercible _ Hp) as Hc.
  unfold detail_card_of.
  rewrite !(get_prop_coercible p _ Hc). simpl.
  destruct (text_content_of (get_prop_opt p "name")); simpl; [|reflexivity].
  destruct (to_string (get_prop_opt p "id")); simpl; [|reflexivity].
  destruct (to_string (get_prop_opt p "breed")); simpl; [|reflexivity].
  destruct (to_string (get_prop_opt p "status")); simpl; [|reflexivity].
  destruct (to_string (if truthy (get_prop_opt p "imageUrl")
                       then get_prop_opt p "imageUrl" else JStr ""));
    simpl; [|reflexivity].
  destruct (to_string (get_prop_opt p "name")); simpl; reflexivity.
Qed.

Lemma renderSinglePlayer_resumes (player : value) :
  renderSinglePlayer player =
  (set_ul [];;
   id <- eval (get_prop player "id");;
   fetchedPlayer <- fetchSinglePlayer id;;
   show_details fetchedPlayer).
Proof. reflexivity. Qed.

Lemma show_details_run (fetched : value) (w : page) :
  show_details fetched w =
  let w1 := with_console (console w ++ [ConsoleLog "Fetched player for details:"]) w in
  if truthy fetched && truthy (get_prop_opt fetched "player")
  then match detail_card_of (get_prop_opt fetched "player") with
       | Normal card => (Normal tt, with_ul (ul w ++ [card]) w1)
       | Throw e => (Throw e, w1)
       end
  else (Normal tt, with_ul [placeholder "Player not found."] w1).
Proof.
  unfold show_details, bind, eval, set_ul, console_log, emit, append_ul, ret.
  cbv zeta. destruct w as [ps u fs d n s c]. simpl.
  destruct (truthy fetched) eqn:Hf; simpl; [|reflexivity].
  rewrite (get_prop_coercible _ "player" (truthy_coercible _ Hf)).
  set (p := get_prop_opt fetched "player").
  destruct (truthy p) eqn:Hp; simpl; [|reflexivity].
  pose proof (truthy_coercible _ Hp) as Hc.
  unfold detail_card_of.
  rewrite !(get_prop_coercible p _ Hc). simpl.
  destruct (text_content_of (get_prop_opt p "name")); simpl; [|reflexivity].
  destruct (to_string (get_prop_opt p "id")); simpl; [|reflexivity].
  destruct (to_string (get_prop_opt p "breed")); simpl; [|reflexivity].
  destruct (to_string (get_prop_opt p "status")); simpl; [|reflexivity].
  destruct (to_string (if truthy (get_prop_opt p "imageUrl")
                       then get_prop_opt p "imageUrl" else JStr ""));
    simpl; [|reflexivity].
  destruct (to_string (get_prop_opt p "name")); simpl; reflexivity.
Qed.

Lemma detail_card_of_record (p : value) (name breed status : string) (n : Z)
      (image : value) (src : string) :
  get_prop_opt p "name" = JStr name ->
  get_prop_opt p "id" = JNum n ->
  get_prop_opt p "breed" = JStr breed ->
  get_prop_opt p "status" = JStr status ->
  get_prop_opt p "imageUrl" = image ->
  image = JStr src \/ (truthy image = false /\ src = "") ->
  truthy p = true /\
  detail_card_of p =
  Normal
    (Elem "li" [] None
       [ Elem "h3" [] None (text_nodes name);
         Elem "h3" [] None [Text ("ID: " +:+ number_to_string n)];
         Elem "h4" [] None [Text ("Breed: " +:+ breed)];
         Elem "h4" [] None [Text ("Status: " +:+ status)];
         Elem "img" [("src", src); ("alt", name)] None [];
         Elem "button" [] (Some BackToList) [Text "Back to all players"] ]).
Proof.
  intros Hname Hn Hbreed Hstatus Himage Hsrc.
  assert (Ht : truthy p = true) by (destruct p; try discriminate; reflexivity).
  split; [exact Ht|]. unfold detail_card_of.
  rewrite !(get_prop_coercible p _ (truthy_coercible _ Ht)).
  rewrite Hname, Hn, Hbreed, Hstatus, Himage. simpl.
  assert (Hto : to_string (if truthy image then image else JStr "") = Normal src).
  { destruct Hsrc as [-> | [-> ->]]; [|reflexivity].
    simpl. destruct (String.eqb src "") eqn:E; simpl; [|reflexivity].
    apply String.eqb_eq in E. subst. reflexivity. }
  rewrite Hto. reflexivity.
Qed.

(** X9. The detail view of a record that the API delivers. Let the
    fetch have delivered a wrapper whose [player] has a string name,
    an integer id, string breed and status, and an image reference
    that is a string or is falsy. The card of that record shows name,
    "ID: " with the id as JavaScript prints it, "Breed: " and
    "Status: " lines, an image whose source is the reference (the
    empty string when there is none) and whose alternative text is
    the name, and one button, "Back to all players", wired to [init].
    The container was cleared before the fetch and is not cleared
    again after it: when the call resumes, the card is appended to
    whatever the container holds at that moment. So the container
    holds exactly that one card when no other handler rendered while
    the call was waiting, as when the call runs in one go. What is
    shown comes from the fetched record, not from the summary passed
    in. *)
Theorem renderSinglePlayer_card
        (fetched : value) (name breed status : string) (n : Z)
        (image : value) (src : string) :
  get_prop_opt (get_prop_opt fetched "player") "name" = JStr name ->
  get_prop_opt (get_prop_opt fetched "player") "id" = JNum n ->
  get_prop_opt (get_prop_opt fetched "player") "breed" = JStr breed ->
  get_prop_opt (get_prop_opt fetched "player") "status" = JStr status ->
  get_prop_opt (get_prop_opt fetched "player") "imageUrl" = image ->
  image = JStr src \/ (truthy image = false /\ src = "") ->
  let card :=
    Elem "li" [] None
      [ Elem "h3" [] None (text_nodes name);
        Elem "h3" [] None [Text ("ID: " +:+ number_to_string n)];
        Elem "h4" [] None [Text ("Breed: " +:+ breed)];
        Elem "h4" [] None [Text ("Status: " +:+ status)];
        Elem "img" [("src", src); ("alt", name)] None [];
        Elem "button" [] (Some BackToList) [Text "Back to all players"] ] in
  (forall resumed : page,
      outcome (show_details fetched) resumed = Normal tt /\
      ul (exec (show_details fetched) resumed) = ul resumed ++ [card]) /\
  (forall player id r json w,
      get_prop player "id" = Normal id ->
      is_primitive id = true ->
      next_answer w = Responded r -> ok r = true -> body r = Some json ->
      get_prop json "data" = Normal fetched ->
      outcome (renderSinglePlayer player) w = Normal tt /\
      ul (exec (renderSinglePlayer player) w) = [card]).
Proof.
  intros Hname Hn Hbreed Hstatus Himage Hsrc card.
  destruct (detail_card_of_record _ _ _ _ _ _ _ Hname Hn Hbreed Hstatus Himage Hsrc)
    as [Hp Hcard].
  assert (Hf : truthy fetched = true).
  { destruct fetched; try discriminate; reflexivity. }
  split.
  - intros resumed. unfold outcome, exec. rewrite show_details_run. cbv zeta.
    rewrite Hf, Hp, Hcard. simpl. auto.
  - intros player id r json w Hid Hprim Hans Hok Hbody Hdata.
    destruct (to_string_primitive id Hprim) as [id_text Hs].
    destruct (renderSinglePlayer_run player id id_text w Hid Hs) as [logs H].
    unfold outcome, exec. rewrite H. clear H. cbv zeta.
    rewrite Hans. unfold detail_result. rewrite Hok, Hbody, Hdata.
    rewrite Hf, Hp, Hcard. simpl. auto.
Qed.

Lemma renderSinglePlayer_card_witness :
  ul (exec (renderSinglePlayer spot)
        (roster_page (always (Responded (Response 200 (Some (player_envelope rex_details)))))))
  = [Elem "li" [] None
       [ Elem "h3" [] None (text_nodes "Rex");
         Elem "h3" [] None [Text ("ID: " +:+ number_to_string 1)];
         Elem "h4" [] None [Text ("Breed: " +:+ "Lab")];
         Elem "h4" [] None [Text ("Status: " +:+ "bench")];
         Elem "img" [("src", ""); ("alt", "Rex")] None [];
         Elem "button" [] (Some BackToList) [Text "Back to all players"] ]]
  /\ length (ul (exec (show_details (JObj 21 [("player", rex_details)]))
                   (exec renderAllPlayers (roster_page (always Rejected)))))
     = 3%nat.
Proof.
  pose proof (renderSinglePlayer_card (JObj 21 [("player", rex_details)])
                "Rex" "Lab" "bench" 1 JNull ""
                eq_refl eq_refl eq_refl eq_refl eq_refl
                (or_intror (conj eq_refl eq_refl))) as [Hresumed Hrun].
  split.
  - apply (Hrun spot (JNum 2) (Response 200 (Some (player_envelope rex_details)))
             (player_envelope rex_details)); reflexivity.
  - rewrite (proj2 (Hresumed _)). reflexivity.
Defined.

(** X10. [renderSinglePlayer] never changes [state.players] or the
    forms, whatever its argument and whatever the API answers; for a
    player with a printable id it sends exactly one request, a GET of
    [API_URL/id_text], and what it leaves in the container does not
    depend on what the container held. *)
Theorem renderSinglePlayer_frame (player : value) (w : page) :
  let w' := exec (renderSinglePlayer player) w in
  players w' = players w /\ forms w' = forms w /\ doc_form w' = doc_form w /\
  (forall id id_text,
      get_prop player "id" = Normal id ->
      to_string id = Normal id_text ->
      sent w' = sent w ++ [detail_request id_text] /\
      forall before, ul (exec (renderSinglePlayer player) (with_ul before w)) = ul w').
Proof.
  cbv zeta. split; [apply players_kept_renderSinglePlayer|].
  split; [apply forms_kept_renderSinglePlayer|].
  split; [apply forms_kept_renderSinglePlayer|].
  intros id id_text Hid Hs.
  destruct (renderSinglePlayer_run player id id_text w Hid Hs) as [logs H].
  unfold exec. rewrite H. cbv zeta. split.
  - destruct (truthy _ && truthy _); [destruct (detail_card_of _)|]; reflexivity.
  - intros before.
    destruct (renderSinglePlayer_run player id id_text (with_ul before w) Hid Hs)
      as [logs' H'].
    rewrite H'. cbv zeta.
    change (next_answer (with_ul before w)) with (next_answer w).
    destruct (truthy _ && truthy _); [destruct (detail_card_of _)|]; reflexivity.
Qed.

Lemma renderSinglePlayer_frame_witness :
  sent (exec (renderSinglePlayer spot) (roster_page (always not_found)))
  = [detail_request "2"].
Proof.
  apply (proj2 (proj2 (proj2 (renderSinglePlayer_frame spot
                                 (roster_page (always not_found)))))
           (JNum 2) "2" eq_refl eq_refl).
Defined.

(** ** The buttons of the roster *)

Lemma is_player_id (p : value) :
  is_player p = true ->
  coercible p = true /\ exists n, get_prop p "id" = Normal (JNum n).
Proof.
  unfold is_player. destruct p as [| | | | | |l props]; simpl; try discriminate.
  destruct (default JUndefined (own_prop "id" props)); try discriminate.
  eauto.
Qed.

Lemma cards_of_buttons (ps : list value) :
  Forall (fun p => is_player p = true) ps ->
  Forall2
    (fun p card =>
       buttons card = [("More details", ShowDetails p); ("Delete", RemoveFromRoster p)])
    ps (fst (cards_of ps)).
Proof.
  induction 1 as [|p ps Hp _ IH]; simpl; [constructor|].
  destruct (card_of_player p Hp) as (id & name & src & _ & _ & ->).
  simpl. constructor; [reflexivity|exact IH].
Qed.

Lemma renderAllPlayers_cards (w : page) :
  players w <> [] ->
  ul (exec renderAllPlayers w) = fst (cards_of (players w)).
Proof.
  intros Hne. unfold exec. rewrite renderAllPlayers_run. simpl.
  unfold roster_of. destruct (players w); [congruence|reflexivity].
Qed.

(** X11. [renderAllPlayers] talks to nobody and binds nothing: it
    sends no request and leaves the forms alone. On a state of Player
    records every card carries exactly two buttons, "More details"
    and "Delete", in this order, each wired to the player of that
    card. *)
Theorem renderAllPlayers_buttons (w : page) :
  let w' := exec renderAllPlayers w in
  sent w' = sent w /\ forms w' = forms w /\ doc_form w' = doc_form w /\
  (players w <> [] ->
   Forall (fun p => is_player p = true) (players w) ->
   Forall2
     (fun p card =>
        buttons card = [("More details", ShowDetails p); ("Delete", RemoveFromRoster p)])
     (players w) (ul w')).
Proof.
  cbv zeta. split; [|split; [|split]].
  - unfold exec. rewrite renderAllPlayers_run. reflexivity.
  - apply forms_kept_renderAllPlayers.
  - apply forms_kept_renderAllPlayers.
  - intros Hne Hps. rewrite (renderAllPlayers_cards w Hne).
    apply cards_of_buttons, Hps.
Qed.

Lemma renderAllPlayers_buttons_witness :
  Forall2
    (fun p card =>
       buttons card = [("More details", ShowDetails p); ("Delete", RemoveFromRoster p)])
    [rex; spot] (ul (exec renderAllPlayers (roster_page (always Rejected)))).
Proof.
  apply (proj2 (proj2 (proj2 (renderAllPlayers_buttons (roster_page (always Rejected)))))).
  - discriminate.
  - repeat constructor.
Defined.

(** X12. The buttons act on the player of their card. On a rendered
    state of Player records, take the card at any position and the
    player at the same position. Clicking the card's "Delete" button,
    the delete request succeeding, leaves in [state.players] exactly
    the entries whose id differs from that player's id, and the
    request was a DELETE of [API_URL/id]. Clicking its "More details"
    button sends a GET of [API_URL/id] and leaves [state.players] as
    it was. *)
Theorem click_card_button (w : page) (i : nat) (p : value) (card : node)
        (n : Z) (label : string) (a : action) :
  Forall (fun q => is_player q = true) (players w) ->
  players w !! i = Some p ->
  ul (exec renderAllPlayers w) !! i = Some card ->
  get_prop_opt p "id" = JNum n ->
  In (label, a) (buttons card) ->
  let shown := exec renderAllPlayers w in
  let after := exec (click a) shown in
  (label = "Delete" ->
   forall r, next_answer shown = Responded r -> ok r = true ->
   players after = List.filter (fun q => negb (has_id (JNum n) q)) (players w) /\
   sent after = sent w ++ [delete_request (number_to_string n)]) /\
  (label = "More details" ->
   players after = players w /\
   sent after = sent w ++ [detail_request (number_to_string n)]).
Proof.
  intros Hps Hp Hcard Hn Hin shown after.
  assert (Hne : players w <> []) by (intros E; rewrite E in Hp; discriminate).
  pose proof (cards_of_buttons _ Hps) as Hb.
  rewrite <- (renderAllPlayers_cards w Hne) in Hb.
  pose proof (Forall2_lookup_lr _ _ _ _ _ _ Hb Hp Hcard) as Hbuttons.
  simpl in Hbuttons. rewrite Hbuttons in Hin.
  assert (Hshown_players : players shown = players w).
  { unfold shown, exec. rewrite renderAllPlayers_run. reflexivity. }
  assert (Hshown_sent : sent shown = sent w).
  { unfold shown, exec. rewrite renderAllPlayers_run. reflexivity. }
  assert (Hpi : is_player p = true).
  { eapply List.Forall_forall in Hps; [exact Hps|].
    apply list_elem_of_In. eapply list_elem_of_lookup_2. exact Hp. }
  destruct (is_player_id p Hpi) as [Hc _].
  assert (Hid : get_prop p "id" = Normal (JNum n)).
  { rewrite (get_prop_coercible p "id" Hc), Hn. reflexivity. }
  split.
  - intros ->. destruct Hin as [Hin|[Hin|[]]]; [discriminate|].
    injection Hin as <-. intros r Hans Hok.
    assert (Hcs : Forall (fun q => coercible q = true) (players shown)).
    { rewrite Hshown_players. eapply Forall_impl; [exact Hps|].
      intros q Hq. simpl in Hq. apply (is_player_id q Hq). }
    pose proof (removePlayer_succeeded p (JNum n) (number_to_string n) r shown
                  Hid eq_refl Hans Hok Hcs) as H.
    cbv zeta in H. unfold after, exec, click, unawaited. simpl. rewrite H. simpl.
    rewrite Hshown_players, Hshown_sent. auto.
  - intros ->. destruct Hin as [Hin|[Hin|[]]]; [|discriminate].
    injection Hin as <-.
    destruct (renderSinglePlayer_run p (JNum n) (number_to_string n) shown Hid eq_refl)
      as [logs H].
    unfold after, exec, click, unawaited. simpl. rewrite H. cbv zeta.
    rewrite <- Hshown_players, <- Hshown_sent.
    destruct (truthy _ && truthy _); [destruct (detail_card_of _)|]; simpl; auto.
Qed.

Lemma click_card_button_witness :
  players (exec (click (RemoveFromRoster spot))
             (exec renderAllPlayers (roster_page (always no_content))))
  = [rex].
Proof.
  apply (proj1 (click_card_button (roster_page (always no_content)) 1 spot
                  (Elem "li" [] None
                     [ Elem "h3" [] None [Text "Spot"];
                       Elem "h3" [] None [Text "ID: 2"];
                       Elem "img" [("src", "undefined"); ("alt", "Spot")] None [];
                       block_button "More details" (ShowDetails spot);
                       block_button "Delete" (RemoveFromRoster spot) ])
                  2 "Delete" (RemoveFromRoster spot)
                  ltac:(repeat constructor) eq_refl eq_refl eq_refl
                  ltac:(right; left; reflexivity))
           eq_refl (Response 204 None) eq_refl eq_refl).
Defined.

(** ** More about the form and the start-up sequence *)

(** X13. With a form in the document, [renderNewPlayerForm] completes
    and puts a new element in its place that holds the same current
    and default values and carries exactly one submit listener,
    however many the old element had; the old element and every other
    form are left as they were, and so are the state, the container
    and the requests. With no form in the document it throws a
    TypeError and changes nothing. *)
Theorem renderNewPlayerForm_rebinds (w : page) :
  let w' := exec renderNewPlayerForm w in
  (forall i f,
      doc_form w = Some i -> forms w !! i = Some f ->
      outcome renderNewPlayerForm w = Normal tt /\
      doc_form w' = Some (length (forms w)) /\
      forms w' !! length (forms w)
      = Some {| values := values f; defaults := defaults f;
                listeners := [Listener i (length (forms w))] |} /\
      (forall k, (k < length (forms w))%nat -> forms w' !! k = forms w !! k) /\
      players w' = players w /\ ul w' = ul w /\ sent w' = sent w) /\
  (doc_form w = None ->
   outcome renderNewPlayerForm w = Throw TypeError /\ w' = w).
Proof.
  cbv zeta. unfold outcome, exec, renderNewPlayerForm. split.
  - intros i f -> ->. simpl. split; [reflexivity|]. split; [reflexivity|].
    split; [apply list_lookup_middle; reflexivity|].
    split; [|auto]. intros k Hk. apply lookup_app_l. exact Hk.
  - intros ->. split; reflexivity.
Qed.

Lemma renderNewPlayerForm_rebinds_witness :
  doc_form (exec renderNewPlayerForm (fresh_page (always Rejected))) = Some 1%nat
  /\ outcome renderNewPlayerForm
       (with_forms [] None (fresh_page (always Rejected))) = Throw TypeError.
Proof.
  split.
  - apply (proj1 (renderNewPlayerForm_rebinds (fresh_page (always Rejected)))
             0%nat (Form blank blank []) eq_refl eq_refl).
  - apply (proj2 (renderNewPlayerForm_rebinds
                    (with_forms [] None (fresh_page (always Rejected))))
             eq_refl).
Defined.

Lemma init_run (w : page) :
  let listed_players := listed (next_answer w) in
  players (exec init w) = listed_players /\
  ul (exec init w) = roster_of listed_players /\
  sent (exec init w) = sent w ++ [list_request] /\
  (roster_outcome listed_players = Normal tt ->
   outcome init w
   = outcome renderNewPlayerForm w) /\
  (forall e, roster_outcome listed_players = Throw e ->
             outcome init w = Throw e /\ forms_kept w (exec init w)).
Proof.
  cbv zeta.
  pose proof (fetchAllPlayers_players w) as Hplayers.
  destruct (fetchAllPlayers_frame w) as (Ho & Hforms & Hd & Hsent & _).
  unfold exec, outcome in *. unfold init, bind.
  destruct (fetchAllPlayers w) as [c w1]. simpl in *. subst c.
  rewrite renderAllPlayers_run. rewrite Hplayers.
  destruct (roster_outcome (listed (next_answer w))) as [[]|e]; simpl.
  - unfold renderNewPlayerForm. simpl. rewrite Hd, Hforms.
    destruct (doc_form w) as [i|]; simpl.
    + destruct (forms w !! i); simpl; rewrite ?Hplayers;
        (split; [reflexivity|]; split; [reflexivity|]; split; [exact Hsent|];
         split; [reflexivity|discriminate]).
    + rewrite ?Hplayers.
      split; [reflexivity|]. split; [reflexivity|]. split; [exact Hsent|].
      split; [reflexivity|discriminate].
  - rewrite ?Hplayers.
    split; [reflexivity|]. split; [reflexivity|]. split; [exact Hsent|].
    split; [discriminate|]. intros e' [= <-].
    split; [reflexivity|]. split; assumption.
Qed.

(** X14. A refresh shows what the API lists and nothing else. For
    every page, after [init] the state is the roster the list
    operation answered with, the container is the rendering of that
    roster, and exactly one request, the list request, went out; none
    of this depends on what the page held before. When the list
    operation fails in any way (network error, body that does not
    parse, flag not true, players not an array) the state is empty
    and the page shows the single row "No players."; with a form in
    the document [init] then completes normally. The "Back to all
    players" button leads to the same page content. *)
Theorem init_shows_listed (w : page) :
  let w' := exec init w in
  players w' = listed (next_answer w) /\
  ul w' = roster_of (listed (next_answer w)) /\
  sent w' = sent w ++ [list_request] /\
  ul (exec (click BackToList) w) = ul w' /\
  (list_failed (next_answer w) = true ->
   players w' = [] /\ ul w' = [placeholder "No players."] /\
   (forall i f, doc_form w = Some i -> forms w !! i = Some f ->
                outcome init w = Normal tt)).
Proof.
  cbv zeta. destruct (init_run w) as (Hp & Hu & Hs & Hok & _). cbv zeta in *.
  split; [exact Hp|]. split; [exact Hu|]. split; [exact Hs|].
  split; [reflexivity|].
  intros Hfail.
  assert (Hl : listed (next_answer w) = []).
  { unfold listed, list_failed in *.
    destruct (next_answer w) as [|[st [json|]]]; try reflexivity.
    destruct (truthy (success_flag json) && is_array (players_field json));
      [discriminate|reflexivity]. }
  rewrite Hp, Hu, Hl. split; [reflexivity|]. split; [reflexivity|].
  intros i f Hd Hf. rewrite Hok by (rewrite Hl; reflexivity).
  unfold outcome, renderNewPlayerForm. rewrite Hd, Hf. reflexivity.
Qed.

Lemma init_shows_listed_witness :
  ul (exec init (roster_page (always Rejected))) = [placeholder "No players."]
  /\ outcome init (roster_page (always Rejected)) = Normal tt.
Proof.
  destruct (proj2 (proj2 (proj2 (proj2 (init_shows_listed (roster_page (always Rejected))))))
              eq_refl) as (_ & Hul & Hout).
  split; [exact Hul|].
  exact (Hout 0%nat (Form blank blank []) eq_refl eq_refl).
Defined.

Lemma cards_of_unreadable (ps : list value) :
  Exists (fun p => coercible p = false) ps ->
  exists e, snd (cards_of ps) = Throw e.
Proof.
  induction 1 as [p ps Hp|p ps _ IH]; simpl.
  - destruct p; try discriminate; simpl; eauto.
  - destruct (card_of p); simpl; eauto.
Qed.

(** X15. When the roster the API lists has an entry that is [null]
    (or [undefined]), [init] stores the roster and then throws out of
    [renderAllPlayers]: [renderNewPlayerForm] is not reached, so the
    form in the document is not rebound and keeps the listeners it
    had. *)
Theorem init_stops_on_null_entry (w : page) :
  Exists (fun p => coercible p = false) (listed (next_answer w)) ->
  (exists e, outcome init w = Throw e) /\
  players (exec init w) = listed (next_answer w) /\
  forms (exec init w) = forms w /\ doc_form (exec init w) = doc_form w.
Proof.
  intros Hbad. destruct (cards_of_unreadable _ Hbad) as [e He].
  destruct (init_run w) as (Hp & _ & _ & _ & Hthrow). cbv zeta in *.
  destruct (Hthrow e He) as (Ho & Hf & Hd).
  split; [eauto|]. auto.
Qed.

Lemma init_stops_on_null_entry_witness :
  doc_form (exec init
              (fresh_page (always (Responded (Response 200 (Some (list_envelope [rex; JNull])))))))
  = Some 0%nat.
Proof.
  apply (proj2 (proj2 (proj2 (init_stops_on_null_entry
           (fresh_page (always (Responded (Response 200 (Some (list_envelope [rex; JNull]))))))
           ltac:(right; left; reflexivity))))).
Defined.

(** ** An invariant of the page: at most one submit listener *)

Lemma bound_once_refl (w : page) : bound_once w -> bound_once w.
Proof. auto. Qed.

Lemma bound_once_trans (a b c : page) :
  (bound_once a -> bound_once b) -> (bound_once b -> bound_once c) ->
  bound_once a -> bound_once c.
Proof. auto. Qed.

Lemma forms_kept_bound_once {A} (m : M A) :
  framed forms_kept m -> framed (fun w w' => bound_once w -> bound_once w') m.
Proof.
  intros Hm w (i & f & Hd & Hf & Hl). destruct (Hm w) as [Hforms Hdoc].
  exists i, f. rewrite Hforms, Hdoc. auto.
Qed.

Lemma bound_once_renderNewPlayerForm :
  framed (fun w w' => bound_once w -> bound_once w') renderNewPlayerForm.
Proof.
  intros w (i & f & Hd & Hf & _). unfold exec, renderNewPlayerForm.
  rewrite Hd, Hf. simpl.
  exists (length (forms w)), (add_listener (Listener i (length (forms w))) (clone_form f)).
  split; [reflexivity|]. split; [apply list_lookup_middle; reflexivity|].
  right. exists i. split; [eapply lookup_lt_Some; exact Hf|reflexivity].
Qed.

Lemma bound_once_init : framed (fun w w' => bound_once w -> bound_once w') init.
Proof.
  unfold init.
  apply framed_bind; [exact bound_once_trans| |intros _].
  - apply forms_kept_bound_once, forms_kept_fetchAllPlayers.
  - apply framed_bind; [exact bound_once_trans| |intros _].
    + apply forms_kept_bound_once, forms_kept_renderAllPlayers.
    + apply bound_once_renderNewPlayerForm.
Qed.

Lemma bound_once_alter (g : form_element -> form_element) (j : nat) (w : page) :
  (forall f, listeners (g f) = listeners f) ->
  bound_once w ->
  bound_once (with_forms (alter g j (forms w)) (doc_form w) w).
Proof.
  intros Hg (i & f & Hd & Hf & Hl). simpl.
  destruct (decide (j = i)) as [->|Hne].
  - exists i, (g f). split; [exact Hd|]. split.
    + simpl. rewrite list_lookup_alter, Hf.
      case_decide; [reflexivity|congruence].
    + rewrite Hg. exact Hl.
  - exists i, f. split; [exact Hd|]. split; [|exact Hl].
    simpl. rewrite list_lookup_alter_ne by exact Hne. exact Hf.
Qed.

Lemma bound_once_submit_handler (h : submit_listener) :
  framed (fun w w' => bound_once w -> bound_once w') (submit_handler h).
Proof.
  unfold submit_handler.
  apply framed_bind; [exact bound_once_trans| |intros _].
  { apply forms_kept_bound_once, forms_kept_emit. }
  apply framed_bind; [exact bound_once_trans| |intros player].
  { intros w Hw. unfold exec, read_fields. destruct (forms w !! _); exact Hw. }
  apply framed_bind; [exact bound_once_trans| |intros _].
  { apply forms_kept_bound_once, forms_kept_addNewPlayer. }
  apply framed_bind; [exact bound_once_trans| |intros _].
  { intros w Hw. apply bound_once_alter; [reflexivity|exact Hw]. }
  apply framed_unawaited, bound_once_init.
Qed.

Lemma bound_once_handle (e : user_event) :
  framed (fun w w' => bound_once w -> bound_once w') (handle e).
Proof.
  destruct e as [v| |a]; simpl.
  - intros w Hw. unfold exec, type_into_form.
    destruct (doc_form w) eqn:Hd; [|exact Hw]. simpl.
    pose proof (bound_once_alter
                  (fun f => {| values := v; defaults := defaults f;
                               listeners := listeners f |}) n w
                  (fun f => eq_refl) Hw) as H.
    rewrite Hd in H. exact H.
  - intros w Hw. unfold exec, submit_form.
    destruct (doc_form w); [|exact Hw].
    destruct (forms w !! n); [|exact Hw].
    revert Hw. apply (framed_for_each _ bound_once_refl bound_once_trans).
    intros h. apply framed_unawaited, bound_once_submit_handler.
  - unfold click. apply framed_unawaited. destruct a.
    + apply forms_kept_bound_once, forms_kept_renderSinglePlayer.
    + apply forms_kept_bound_once, forms_kept_removePlayer.
    + apply bound_once_init.
Qed.

Lemma bound_once_session (es : list user_event) :
  forall w, bound_once w -> bound_once (session es w).
Proof.
  induction es as [|e es IH]; intros w Hw; simpl; [exact Hw|].
  apply IH, bound_once_handle, Hw.
Qed.

Lemma bound_once_fresh_page (answers : nat -> fetch_result) :
  bound_once (fresh_page answers).
Proof.
  exists 0%nat, (Form blank blank []). split; [reflexivity|].
  split; [reflexivity|]. left. reflexivity.
Qed.

(** X16. Handlers never pile up. Start from a page whose form carries
    at most one submit listener (the page as loaded, or after [init]),
    and let the user type, submit and click any buttons, in any order,
    the API answering anything. The form on the page still carries at
    most one listener, reading that very form. So a submission is
    either not intercepted at all (no listener: nothing happens in the
    script) or it prevents the default action and sends exactly one
    create request, carrying the values the form shows, followed by
    exactly one list request. *)
Theorem session_submits_once (es : list user_event) (w0 : page) :
  bound_once w0 ->
  let w := session es w0 in
  bound_once w /\
  forall v,
    visible_fields w = Some v ->
    exec submit_form w = w \/
    (sent (exec submit_form w) = sent w ++ [create_request v; list_request] /\
     In DefaultPrevented (console (exec submit_form w))).
Proof.
  intros H0 w. pose proof (bound_once_session es w0 H0) as Hw. fold w in Hw.
  split; [exact Hw|]. intros v Hv.
  destruct Hw as (i & f & Hd & Hf & Hl).
  unfold visible_fields in Hv. rewrite Hd, Hf in Hv. injection Hv as <-.
  unfold exec at 1 2 3, submit_form. rewrite Hd, Hf.
  destruct Hl as [-> | (j & Hj & ->)].
  - left. reflexivity.
  - right. simpl. unfold bind, unawaited, ret. simpl.
    assert (Hne : j <> i) by lia.
    destruct (submit_handler_run w j i f Hd Hf Hne) as (_ & Hp & Hs & _).
    unfold exec in *. split; assumption.
Qed.

Lemma session_submits_once_witness :
  bound_once
    (session [Typed rex_fields; Submitted; Clicked (RemoveFromRoster rex); Submitted]
       (exec init (fresh_page (always created)))).
Proof.
  apply (session_submits_once
           [Typed rex_fields; Submitted; Clicked (RemoveFromRoster rex); Submitted]
           (exec init (fresh_page (always created)))).
  exists 1%nat, (Form blank blank [Listener 0 1]).
  split; [reflexivity|]. split; [reflexivity|].
  right. exists 0%nat. split; [lia|reflexivity].
Defined.

(** ** Large ids

    An id of 10^21 is printed with an exponent, in the label of the
    card and in the URLs of the detail and delete requests. *)

Example giant_card :
  map shown_id
    (ul (exec renderAllPlayers (with_players [giant] (fresh_page (always Rejected)))))
  = [Some [Text "ID: 1e+21"]].
Proof. vm_compute. reflexivity. Qed.

Example giant_requests :
  sent (exec (removePlayer giant)
          (exec (fetchSinglePlayer (JNum (10 ^ 21))) (fresh_page (always not_found))))
  = [Request GET
       "https://fsa-puppy-bowl.herokuapp.com/api/2409-GHP-ET-WEB-PT/players/1e+21"
       None;
     Request DELETE
       "https://fsa-puppy-bowl.herokuapp.com/api/2409-GHP-ET-WEB-PT/players/1e+21"
       None].
Proof. vm_compute. reflexivity. Qed.
